(** * The session bridge of [game_env.py]

    A shallow embedding of the [GameEnvironment] class: the session state
    ([game_state], [turn_number], [game_history]), the exchange with the
    engine process ([_call_bridge]) and the public operations built on it;
    then the callers of the class: the agent of [random_agent.py] and the
    two short games that [main] and [test_random_agent] play.

    Conventions of the embedding:
    - a Python value that can flow through the bridge is a [json] value
      ([JNull] is [None]); a [dict] with string keys is a [gmap string json];
    - a method is a computation in the monad [M]: it reads and updates [self]
      and either returns or raises;
    - calls to [self.logger] only append to the event log and are left out,
      but every subexpression of their arguments that can raise is kept,
      with one exception: formatting a value as it came from the caller or
      from a snapshot is taken to succeed. [str] refuses an [int] of more
      than 4300 digits; [json.loads] refuses such a literal as well, so the
      values decoded by the bridge hold none, and the theorems that speak
      of what [execute_action] does before the exchange take a turn number
      and arguments that [str] accepts ([fits_str], [formattable]). The
      totals that [_log_game_state] adds up are new values, and their
      formatting is kept;
    - the child process and its pipes are the record [Popen]; what the engine
      writes, and whether it exits, is data of that record, so that the
      theorems quantify over every behaviour of the engine;
    - [json.loads] and [str.strip] belong to the Python library and are
      parameters of the development. *)

From stdpp Require Import gmap strings list fin_maps sorting.
From Stdlib Require Import ZArith Ascii.

Local Set Warnings "-register-all".
Local Open Scope Z_scope.

(** ** Python values *)

(** What [json.loads] can produce. A float is kept as its IEEE-754 binary64
    bit pattern. *)
Inductive json : Type :=
| JNull
| JBool (b : bool)
| JInt (n : Z)
| JFloat (bits : Z)
| JStr (s : string)
| JList (l : list json)
| JDict (d : gmap string json).

(** [bool(v)]: [None], [False], zero, and empty containers are falsy. Both
    [0.0] and [-0.0] are zero: every bit below the sign bit is clear. *)
Definition truthy (v : json) : bool :=
  match v with
  | JNull => false
  | JBool b => b
  | JInt n => negb (Z.eqb n 0)
  | JFloat bits => negb (Z.eqb (Z.land bits (Z.ones 63)) 0)
  | JStr s => negb (String.eqb s "")
  | JList l => match l with [] => false | _ :: _ => true end
  | JDict d => negb (bool_decide (size d = 0%nat))
  end.

(** [type(v).__name__] *)
Definition type_name (v : json) : string :=
  match v with
  | JNull => "NoneType"
  | JBool _ => "bool"
  | JInt _ => "int"
  | JFloat _ => "float"
  | JStr _ => "str"
  | JList _ => "list"
  | JDict _ => "dict"
  end.

(** [d.get(key, dflt)] on a dict, and [d.get(key)] whose default is [None]. *)
Definition get_default (d : gmap string json) (key : string) (dflt : json) : json :=
  default dflt (d !! key).

Definition get (d : gmap string json) (key : string) : json :=
  get_default d key JNull.

(** ** Exceptions and outcomes *)

Inductive exn : Type :=
| AttributeError (msg : string)
| TypeError (msg : string)
| OSError (msg : string)
| JSONDecodeError (msg : string)
| TimeoutExpired
| RuntimeError (msg : string)
| OverflowError (msg : string)
| ValueError (msg : string).

(** [str(e)], as the f-strings of [_call_bridge] format it. *)
Definition exn_message (e : exn) : string :=
  match e with
  | AttributeError msg | TypeError msg | OSError msg
  | JSONDecodeError msg | RuntimeError msg
  | OverflowError msg | ValueError msg => msg
  | TimeoutExpired => "Command '['node', ...]' timed out after 2 seconds"
  end.

Inductive outcome (A : Type) : Type :=
| Returned (a : A)
| Raised (e : exn).
Arguments Returned {A} a.
Arguments Raised {A} e.

(** Looking up a dict method ([get], [keys], [items]) on a value: any value
    that is not a dict has no such attribute. *)
Definition dict_method (v : json) (attr : string) : outcome (gmap string json) :=
  match v with
  | JDict d => Returned d
  | _ => Raised (AttributeError
           ("'" +:+ type_name v +:+ "' object has no attribute '" +:+ attr +:+ "'"))
  end.

(** ** The engine process *)

(** One [readline()] on the child's standard output: a line, or a read
    that raises (undecodable bytes, a closed file). *)
Inductive read_event : Type :=
| Line (s : string)
| ReadError (msg : string).

(** The [subprocess.Popen] handle together with the child it stands for.
    - [returncode]: what [poll()] reports, [None] while the child runs;
    - [stdin_error]: when set, [stdin.write]/[flush] raise with this text
      (a broken pipe, say);
    - [stdin]: the commands written so far, each standing for its
      [json.dumps] line;
    - [stdout]: what the next calls of [readline()] yield; once exhausted the
      stream is at its end and [readline()] yields the empty string;
    - [wait_exit]: the exit status [wait(timeout=2)] observes, [None] when the
      child outlives the timeout;
    - [sigterm]: [terminate()] has signalled the live child. *)
Record Popen : Type := {
  returncode : option Z;
  stdin_error : option string;
  stdin : list (gmap string json);
  stdout : list read_event;
  wait_exit : option Z;
  sigterm : bool
}.

Definition stdin_write (command : gmap string json) (p : Popen) : outcome unit * Popen :=
  match stdin_error p with
  | Some msg => (Raised (OSError msg), p)
  | None =>
      (Returned tt,
       {| returncode := returncode p; stdin_error := stdin_error p;
          stdin := stdin p ++ [command]; stdout := stdout p;
          wait_exit := wait_exit p; sigterm := sigterm p |})
  end.

Definition stdout_readline (p : Popen) : outcome string * Popen :=
  match stdout p with
  | [] => (Returned "", p)
  | ev :: rest =>
      let p' := {| returncode := returncode p; stdin_error := stdin_error p;
                   stdin := stdin p; stdout := rest;
                   wait_exit := wait_exit p; sigterm := sigterm p |} in
      match ev with
      | Line s => (Returned s, p')
      | ReadError msg => (Raised (OSError msg), p')
      end
  end.

(** [wait(timeout=2)] *)
Definition wait (p : Popen) : outcome Z * Popen :=
  match returncode p with
  | Some code => (Returned code, p)
  | None =>
      match wait_exit p with
      | Some code =>
          (Returned code,
           {| returncode := Some code; stdin_error := stdin_error p;
              stdin := stdin p; stdout := stdout p;
              wait_exit := wait_exit p; sigterm := sigterm p |})
      | None => (Raised TimeoutExpired, p)
      end
  end.

(** [terminate()] does nothing to a child that has already exited. *)
Definition terminate (p : Popen) : outcome unit * Popen :=
  match returncode p with
  | Some _ => (Returned tt, p)
  | None =>
      (Returned tt,
       {| returncode := None; stdin_error := stdin_error p;
          stdin := stdin p; stdout := stdout p;
          wait_exit := wait_exit p; sigterm := true |})
  end.

(** ** The session *)

(** One entry of [game_history]: the [action_record] dict of
    [execute_action], whose keys are fixed. *)
Record action_record : Type := {
  turn : Z;
  player : json;
  action : json;
  arg : json;
  timestamp : string;
  game_state_before : json;
  game_state_after : json
}.

(** The attributes of a [GameEnvironment] that the operations read or
    write. *)
Record GameEnvironment : Type := {
  game_state : json;
  turn_number : Z;
  game_history : list action_record;
  bridge_process : option Popen
}.

Definition set_game_state (v : json) (self : GameEnvironment) : GameEnvironment :=
  {| game_state := v; turn_number := turn_number self;
     game_history := game_history self; bridge_process := bridge_process self |}.

Definition set_turn_number (n : Z) (self : GameEnvironment) : GameEnvironment :=
  {| game_state := game_state self; turn_number := n;
     game_history := game_history self; bridge_process := bridge_process self |}.

Definition set_game_history (h : list action_record) (self : GameEnvironment) : GameEnvironment :=
  {| game_state := game_state self; turn_number := turn_number self;
     game_history := h; bridge_process := bridge_process self |}.

Definition set_bridge_process (p : option Popen) (self : GameEnvironment) : GameEnvironment :=
  {| game_state := game_state self; turn_number := turn_number self;
     game_history := game_history self; bridge_process := p |}.

(** ** Methods as computations on [self] *)

Definition M (A : Type) : Type := GameEnvironment → outcome A * GameEnvironment.

#[local] Instance M_ret : MRet M := λ A a self, (Returned a, self).

#[local] Instance M_bind : MBind M := λ A B f m self,
  match m self with
  | (Returned a, self') => f a self'
  | (Raised e, self') => (Raised e, self')
  end.

Definition get_self : M GameEnvironment := λ self, (Returned self, self).

Definition update (f : GameEnvironment → GameEnvironment) : M unit :=
  λ self, (Returned tt, f self).

Definition lift {A : Type} (o : outcome A) : M A := λ self, (o, self).

(** [try: body  except Exception as e: handler e]; every exception of [exn]
    derives from [Exception]. *)
Definition try_except {A : Type} (body : M A) (handler : exn → M A) : M A :=
  λ self,
    match body self with
    | (Returned a, self') => (Returned a, self')
    | (Raised e, self') => handler e self'
    end.

(** A method call on [self.bridge_process]. *)
Definition on_process {A : Type} (attr : string) (f : Popen → outcome A * Popen) : M A :=
  λ self,
    match bridge_process self with
    | Some p => let '(o, p') := f p in (o, set_bridge_process (Some p') self)
    | None => (Raised (AttributeError
                 ("'NoneType' object has no attribute '" +:+ attr +:+ "'")), self)
    end.

(** [self.bridge_process and self.bridge_process.poll() is None] *)
Definition process_running (self : GameEnvironment) : bool :=
  match bridge_process self with
  | Some p => match returncode p with None => true | Some _ => false end
  | None => false
  end.

(** ** Sample data

    A decoder that knows the response lines used in the examples and agrees
    with [json.loads] on them, a [strip] for ASCII white space, and a few
    processes and sessions. *)

Definition dquote : string := String "034"%char "".

(** [{"success": true}] *)
Definition line_ok_bare : string :=
  "{" +:+ dquote +:+ "success" +:+ dquote +:+ ": true}".

(** [{"success": false}] *)
Definition line_failed_bare : string :=
  "{" +:+ dquote +:+ "success" +:+ dquote +:+ ": false}".

(** [{"success": true, "gameState": {"active_player": "Greece"}}] *)
Definition line_ok_greece : string :=
  "{" +:+ dquote +:+ "success" +:+ dquote +:+ ": true, "
      +:+ dquote +:+ "gameState" +:+ dquote +:+ ": {"
      +:+ dquote +:+ "active_player" +:+ dquote +:+ ": "
      +:+ dquote +:+ "Greece" +:+ dquote +:+ "}}".

(** [{"success": true, "gameState": {"active_player": "Persia"}}] *)
Definition line_ok_persia : string :=
  "{" +:+ dquote +:+ "success" +:+ dquote +:+ ": true, "
      +:+ dquote +:+ "gameState" +:+ dquote +:+ ": {"
      +:+ dquote +:+ "active_player" +:+ dquote +:+ ": "
      +:+ dquote +:+ "Persia" +:+ dquote +:+ "}}".

(** [{"success": false, "error": "Invalid action"}] *)
Definition line_rejected : string :=
  "{" +:+ dquote +:+ "success" +:+ dquote +:+ ": false, "
      +:+ dquote +:+ "error" +:+ dquote +:+ ": "
      +:+ dquote +:+ "Invalid action" +:+ dquote +:+ "}".

Definition snapshot_greece : json := JDict {[ "active_player" := JStr "Greece" ]}.
Definition snapshot_persia : json := JDict {[ "active_player" := JStr "Persia" ]}.

Definition sample_loads (s : string) : outcome json :=
  if String.eqb s "{}" then Returned (JDict ∅)
  else if String.eqb s line_ok_bare then
    Returned (JDict {[ "success" := JBool true ]})
  else if String.eqb s line_failed_bare then
    Returned (JDict {[ "success" := JBool false ]})
  else if String.eqb s line_ok_greece then
    Returned (JDict {[ "success" := JBool true; "gameState" := snapshot_greece ]})
  else if String.eqb s line_ok_persia then
    Returned (JDict {[ "success" := JBool true; "gameState" := snapshot_persia ]})
  else if String.eqb s line_rejected then
    Returned (JDict {[ "success" := JBool false; "error" := JStr "Invalid action" ]})
  else Raised (JSONDecodeError "Expecting value: line 1 column 1 (char 0)").

Definition is_space (c : ascii) : bool :=
  let n := nat_of_ascii c in
  ((9 <=? n)%nat && (n <=? 13)%nat) || ((28 <=? n)%nat && (n <=? 32)%nat).

Fixpoint lstrip (s : string) : string :=
  match s with
  | String c rest => if is_space c then lstrip rest else s
  | EmptyString => EmptyString
  end.

Fixpoint rstrip (s : string) : string :=
  match s with
  | String c rest =>
      match rstrip rest with
      | EmptyString => if is_space c then EmptyString else String c EmptyString
      | rest' => String c rest'
      end
  | EmptyString => EmptyString
  end.

Definition sample_strip (s : string) : string := rstrip (lstrip s).

Definition newline : string := String "010"%char "".

(** A live child that will answer with the given lines. *)
Definition live_process (lines : list string) : Popen :=
  {| returncode := None; stdin_error := None; stdin := [];
     stdout := (λ l, Line (l +:+ newline)) <$> lines;
     wait_exit := Some 0; sigterm := false |}.

(** A child that was killed from outside (SIGKILL). *)
Definition killed_process : Popen :=
  {| returncode := Some (-9); stdin_error := Some "[Errno 32] Broken pipe";
     stdin := []; stdout := []; wait_exit := None; sigterm := false |}.

Definition sample_record : action_record :=
  {| turn := 1; player := JStr "Greece"; action := JStr "draw"; arg := JNull;
     timestamp := "2025-01-01T12:00:00"; game_state_before := snapshot_greece;
     game_state_after := snapshot_persia |}.

(** A session as [__init__] leaves it, with a live engine. *)
Definition fresh_session (lines : list string) : GameEnvironment :=
  {| game_state := JNull; turn_number := 0; game_history := [];
     bridge_process := Some (live_process lines) |}.

(** A session one turn into a game, with a live engine. *)
Definition midgame_session (lines : list string) : GameEnvironment :=
  {| game_state := snapshot_persia; turn_number := 1;
     game_history := [sample_record];
     bridge_process := Some (live_process lines) |}.

(** A session one turn into a game, whose engine has been killed. *)
Definition orphaned_session : GameEnvironment :=
  {| game_state := snapshot_persia; turn_number := 1;
     game_history := [sample_record]; bridge_process := Some killed_process |}.

(** A session whose snapshot reports the end of the game and names no
    winner. *)
Definition finished_session : GameEnvironment :=
  {| game_state := JDict {[ "game_over" := JBool true;
                            "active_player" := JStr "Greece" ]};
     turn_number := 1; game_history := [sample_record];
     bridge_process := Some (live_process []) |}.

(** The action mapping and the snapshot of a turn that offers [draw],
    [next] and [undo], and a session that holds this snapshot. *)
Definition actions_with_undo : gmap string json :=
  {[ "draw" := JInt 1; "next" := JInt 1; "undo" := JInt 1 ]}.

Definition snapshot_with_undo : gmap string json :=
  {[ "active_player" := JStr "Greece"; "actions" := JDict actions_with_undo ]}.

Definition undo_session : GameEnvironment :=
  {| game_state := JDict snapshot_with_undo; turn_number := 1;
     game_history := [sample_record];
     bridge_process := Some (live_process []) |}.

(** ** Commands and results *)

#[local] Instance outcome_ret : MRet outcome := λ A a, Returned a.

#[local] Instance outcome_bind : MBind outcome := λ A B f o,
  match o with
  | Returned a => f a
  | Raised e => Raised e
  end.

(** [{'success': False, 'error': error_msg}] *)
Definition failure (error_msg : string) : gmap string json :=
  {[ "success" := JBool false; "error" := JStr error_msg ]}.

Definition setup_command (seed scenario options : json) : gmap string json :=
  {[ "cmd" := JStr "setup";
     "args" := JDict {[ "seed" := seed; "scenario" := scenario;
                        "options" := options ]} ]}.

Definition state_command : gmap string json := {[ "cmd" := JStr "state" ]}.

Definition action_command (player action arg : json) : gmap string json :=
  {[ "cmd" := JStr "action";
     "args" := JDict {[ "player" := player; "action" := action; "arg" := arg ]} ]}.

Definition quit_command : gmap string json := {[ "cmd" := JStr "quit" ]}.

(** The commands that the methods of the class pass to [_call_bridge]. *)
Inductive issued : gmap string json → Prop :=
| issued_setup seed scenario options : issued (setup_command seed scenario options)
| issued_state : issued state_command
| issued_action player action arg : issued (action_command player action arg)
| issued_quit : issued quit_command.

(** The debug lines at the head of [_call_bridge]: for an [action] command
    they read [args.get('player', '?')] and its siblings. The formatting
    of what they read is left out, as in [execute_action]. *)
Definition describe_command (command : gmap string json) : outcome unit :=
  match get_default command "cmd" (JStr "unknown") with
  | JStr cmd_type =>
      if String.eqb cmd_type "action" then
        _ ← dict_method (get_default command "args" (JDict ∅)) "get";
        Returned tt
      else Returned tt
  | _ => Returned tt
  end.

(** ** Unit totals of [_log_game_state]

    A total starts as the [int] 0 and takes in one unit count after the
    other. An [int] total is kept exactly. Once a float has been added the
    total is a float, and which float does not matter: float addition never
    raises, it overflows to infinity. *)

Inductive total : Type :=
| IntTotal (n : Z)
| FloatTotal.

Definition total_type (t : total) : string :=
  match t with IntTotal _ => "int" | FloatTotal => "float" end.

(** [float(n)] succeeds for an [int] that rounds to a finite double: the
    largest double is [2^1024 - 2^971], and the integers from
    [2^1024 - 2^970] on round to [2^1024]. *)
Definition fits_float (n : Z) : bool := Z.abs n <? 2 ^ 1024 - 2 ^ 970.

(** [str(n)] succeeds for an [int] of at most 4300 digits. *)
Definition fits_str (n : Z) : bool := Z.abs n <? 10 ^ 4300.

Definition int_too_large : exn :=
  OverflowError "int too large to convert to float".

Definition int_too_long : exn :=
  ValueError ("Exceeds the limit (4300 digits) for integer string conversion; "
              +:+ "use sys.set_int_max_str_digits() to increase the limit").

(** [acc += x or 0]. [True] counts as 1; an [int] that meets a float is
    converted to a float first. *)
Definition add_units (acc : total) (x : json) : outcome total :=
  let addend := if truthy x then x else JInt 0 in
  match addend with
  | JBool b =>
      match acc with
      | IntTotal a => Returned (IntTotal (a + (if b then 1 else 0)))
      | FloatTotal => Returned FloatTotal
      end
  | JInt n =>
      match acc with
      | IntTotal a => Returned (IntTotal (a + n))
      | FloatTotal => if fits_float n then Returned FloatTotal
                      else Raised int_too_large
      end
  | JFloat _ =>
      match acc with
      | IntTotal a => if fits_float a then Returned FloatTotal
                      else Raised int_too_large
      | FloatTotal => Returned FloatTotal
      end
  | _ => Raised (TypeError ("unsupported operand type(s) for +=: '"
                   +:+ total_type acc +:+ "' and '" +:+ type_name addend +:+ "'"))
  end.

(** A total as a field of the f-string that reports the totals. *)
Definition format_total (t : total) : outcome unit :=
  match t with
  | IntTotal n => if fits_str n then Returned tt else Raised int_too_long
  | FloatTotal => Returned tt
  end.

Definition index (l : list json) (i : nat) : json := default JNull (l !! i).

(** The body of [for city, unit_array in units.items()]. *)
Definition count_city (totals : total * total * total * total)
    (item : string * json) : outcome (total * total * total * total) :=
  let '(greek_armies, persian_armies, greek_fleets, persian_fleets) := totals in
  match item with
  | (city, JList unit_array) =>
      if String.eqb city "reserve" then Returned totals
      else
        '(greek_armies, persian_armies) ←
          (if (2 <=? length unit_array)%nat then
             ga ← add_units greek_armies (index unit_array 0);
             pa ← add_units persian_armies (index unit_array 1);
             Returned (ga, pa)
           else Returned (greek_armies, persian_armies));
        '(greek_fleets, persian_fleets) ←
          (if (4 <=? length unit_array)%nat then
             gf ← add_units greek_fleets (index unit_array 2);
             pf ← add_units persian_fleets (index unit_array 3);
             Returned (gf, pf)
           else Returned (greek_fleets, persian_fleets));
        Returned (greek_armies, persian_armies, greek_fleets, persian_fleets)
  | _ => Returned totals
  end.

Fixpoint for_each {A B : Type} (body : A → B → outcome A) (acc : A) (l : list B) : outcome A :=
  match l with
  | [] => Returned acc
  | x :: rest =>
      match body acc x with
      | Returned acc' => for_each body acc' rest
      | Raised e => Raised e
      end
  end.

(** What [_log_game_state] evaluates on a truthy [game_state]: the reads
    of the snapshot, the totals of the units, and the line that reports the
    totals. A dict is walked in insertion order, which a [gmap] does not
    keep: the entries are taken in the order of [map_to_list]. The order
    decides which of several offending entries raises first and, when
    integers beyond the range of a float meet floats, whether the sum
    raises at all; the properties below hold in every order. *)
Definition log_game_state_of (state : json) : outcome unit :=
  gs ← dict_method state "get";
  _ ← dict_method (get_default gs "actions" (JDict ∅)) "keys";
  let units := get_default gs "units" (JDict ∅) in
  if truthy units then
    u ← dict_method units "items";
    '(greek_armies, persian_armies, greek_fleets, persian_fleets) ←
      for_each count_city (IntTotal 0, IntTotal 0, IntTotal 0, IntTotal 0)
        (map_to_list u);
    _ ← format_total greek_armies;
    _ ← format_total greek_fleets;
    _ ← format_total persian_armies;
    format_total persian_fleets
  else Returned tt.

(** [__init__]: the attributes are set, then [_start_bridge_server] spawns
    the child; [popen] is what [subprocess.Popen(...)] does. *)
Definition __init__ (popen : outcome Popen) : outcome GameEnvironment :=
  match popen with
  | Returned p =>
      Returned {| game_state := JNull; turn_number := 0; game_history := [];
                  bridge_process := Some p |}
  | Raised e =>
      Raised (RuntimeError ("Failed to start bridge server: " +:+ exn_message e))
  end.

(** [if options is None: options = {}] *)
Definition default_options (options : json) : json :=
  match options with JNull => JDict ∅ | _ => options end.

Section Bridge.

(** [str.strip] and [json.loads]. *)
Variable str_strip : string → string.
Variable json_loads : string → outcome json.

Definition _call_bridge (command : gmap string json) : M (gmap string json) :=
  self ← get_self;
  if negb (process_running self) then
    mret (failure "Bridge server not running")
  else
    lift (describe_command command);;
    try_except
      (on_process "stdin" (stdin_write command);;
       response_line ← on_process "stdout" stdout_readline;
       if String.eqb response_line "" then
         mret (failure "No response from bridge")
       else
         response ← lift (json_loads (str_strip response_line));
         lift (dict_method response "get"))
      (λ e, match e with
            | JSONDecodeError msg =>
                mret (failure ("JSON decode error: " +:+ msg))
            | _ =>
                mret (failure ("Bridge communication error: " +:+ exn_message e))
            end).

Definition __del__ : M unit :=
  self ← get_self;
  if process_running self then
    try_except
      (_call_bridge quit_command;;
       on_process "wait" wait;;
       mret tt)
      (λ _, on_process "terminate" terminate)
  else mret tt.

Definition _log_game_state : M unit :=
  self ← get_self;
  if negb (truthy (game_state self)) then mret tt
  else lift (log_game_state_of (game_state self)).

Definition new_game (seed scenario options : json) : M (gmap string json) :=
  let options := default_options options in
  update (set_turn_number 0);;
  update (set_game_history []);;
  result ← _call_bridge (setup_command seed scenario options);
  (if truthy (get result "success") then
     update (set_game_state (get result "gameState"));;
     self ← get_self;
     if truthy (game_state self) then
       lift (dict_method (game_state self) "get");;
       _log_game_state
     else mret tt
   else mret tt);;
  mret result.

Definition get_state : M (gmap string json) :=
  result ← _call_bridge state_command;
  (if truthy (get result "success") then
     update (set_game_state (get result "gameState"))
   else mret tt);;
  mret result.

Definition get_actions (include_undo : bool) : M (gmap string json) :=
  self ← get_self;
  if negb (truthy (game_state self)) then
    mret (failure "No active game")
  else
    gs ← lift (dict_method (game_state self) "get");
    let raw_actions := get_default gs "actions" (JDict ∅) in
    let active_player := get gs "active_player" in
    actions ←
      (if include_undo then mret raw_actions
       else
         items ← lift (dict_method raw_actions "items");
         mret (JDict (filter (λ kv, kv.1 ≠ "undo") items)));
    lift (dict_method actions "keys");;
    mret ({[ "success" := JBool true;
             "actions" := actions;
             "active_player" := active_player;
             "message" := JStr ("Available actions from game state"
                            +:+ (if include_undo then "" else " (undo filtered)")) ]}
          : gmap string json).

(** [now] is what [datetime.datetime.now().isoformat()] reads off the
    clock during the call. Between the increment of [turn_number] and the
    exchange, the method formats the turn number, [player], [action] and,
    when it is not [None], [arg] for the log; that step is left out (see
    the conventions at the head of the file), so for a value that [str]
    refuses, where the method raises [ValueError] before the exchange, the
    definition goes on to the exchange. *)
Definition execute_action (player action arg : json) (now : string)
    : M (gmap string json) :=
  self ← get_self;
  update (set_turn_number (turn_number self + 1));;
  result ← _call_bridge (action_command player action arg);
  (if truthy (get result "success") then
     self ← get_self;
     let old_state := game_state self in
     update (set_game_state (get result "gameState"));;
     self ← get_self;
     let action_record :=
       {| turn := turn_number self; player := player; action := action;
          arg := arg; timestamp := now; game_state_before := old_state;
          game_state_after := game_state self |} in
     update (set_game_history (game_history self ++ [action_record]));;
     self ← get_self;
     if truthy (game_state self) then
       lift (dict_method (game_state self) "get");;
       _log_game_state
     else mret tt
   else mret tt);;
  mret result.

Definition is_game_over : M json :=
  self ← get_self;
  if negb (truthy (game_state self)) then mret (JBool false)
  else
    gs ← lift (dict_method (game_state self) "get");
    mret (get_default gs "game_over" (JBool false)).

Definition get_winner : M json :=
  self ← get_self;
  if negb (truthy (game_state self)) then mret JNull
  else
    gs ← lift (dict_method (game_state self) "get");
    mret (get gs "winner").

Definition get_active_player : M json :=
  self ← get_self;
  if negb (truthy (game_state self)) then mret JNull
  else
    gs ← lift (dict_method (game_state self) "get");
    mret (get gs "active_player").

Definition get_prompt : M json :=
  self ← get_self;
  if negb (truthy (game_state self)) then mret (JStr "")
  else
    gs ← lift (dict_method (game_state self) "get");
    mret (get_default gs "prompt" (JStr "")).

Definition get_game_history : M (list action_record) :=
  self ← get_self; mret (game_history self).

Definition get_turn_number : M Z :=
  self ← get_self; mret (turn_number self).

(** ** Runs of a session

    What happens to a session between two of its states: the caller
    invokes an operation, or the engine process moves on by itself (it
    writes, closes a pipe, exits, is killed). An exception that an
    operation raises leaves [self] as it was at that point, and the run
    goes on from there. *)

Inductive event : Type :=
| ExecuteAction (player action arg : json) (now : string)
| GetState
| Engine (p : Popen).

Definition step (e : event) (self : GameEnvironment) : GameEnvironment :=
  match e with
  | ExecuteAction player action arg now =>
      snd (execute_action player action arg now self)
  | GetState => snd (get_state self)
  | Engine p =>
      match bridge_process self with
      | Some _ => set_bridge_process (Some p) self
      | None => self
      end
  end.

Fixpoint run (evs : list event) (self : GameEnvironment) : GameEnvironment :=
  match evs with
  | [] => self
  | e :: evs' => run evs' (step e self)
  end.

(** The exchange that [_call_bridge command] performs from [self] comes
    back with a truthy [success]. *)
Definition exchange_ok (command : gmap string json) (self : GameEnvironment) : bool :=
  match fst (_call_bridge command self) with
  | Returned result => truthy (get result "success")
  | Raised _ => false
  end.

Definition action_ok (e : event) (self : GameEnvironment) : option bool :=
  match e with
  | ExecuteAction player action arg _ =>
      Some (exchange_ok (action_command player action arg) self)
  | _ => None
  end.

(** The number of [execute_action] calls of a run, and how many of them
    had a successful exchange. *)
Fixpoint attempts (evs : list event) : nat :=
  match evs with
  | [] => 0
  | e :: evs' =>
      match e with
      | ExecuteAction _ _ _ _ => S (attempts evs')
      | _ => attempts evs'
      end
  end.

Fixpoint successes (evs : list event) (self : GameEnvironment) : nat :=
  match evs with
  | [] => 0
  | e :: evs' =>
      match action_ok e self with
      | Some true => S (successes evs' (step e self))
      | _ => successes evs' (step e self)
      end
  end.

Fixpoint all_succeed (evs : list event) (self : GameEnvironment) : bool :=
  match evs with
  | [] => true
  | e :: evs' =>
      match action_ok e self with
      | Some false => false
      | _ => all_succeed evs' (step e self)
      end
  end.

(** The turn records a run should leave behind, read off the run itself:
    one for each [execute_action] call whose exchange succeeded, built from
    the arguments of the call, the snapshot the session held just before
    it and the one it holds just after it; [attempt] counts the
    [execute_action] calls made so far. *)
Fixpoint turn_records (evs : list event) (self : GameEnvironment) (attempt : Z)
    : list action_record :=
  match evs with
  | [] => []
  | e :: evs' =>
      match e with
      | ExecuteAction player action arg now =>
          (if exchange_ok (action_command player action arg) self then
             [{| turn := attempt + 1; player := player; action := action;
                 arg := arg; timestamp := now;
                 game_state_before := game_state self;
                 game_state_after := game_state (step e self) |}]
           else [])
          ++ turn_records evs' (step e self) (attempt + 1)
      | _ => turn_records evs' (step e self) attempt
      end
  end.

(** [result.get('actions', {})], the way a caller reads the action mapping
    out of what [get_actions] returned. *)
Definition returned_actions (result : gmap string json) : json :=
  get_default result "actions" (JDict ∅).

(** The exchange seen from the process alone. *)
Definition exchange (command : gmap string json) (p : option Popen)
    : outcome (gmap string json) * option Popen :=
  let '(o, self) :=
    _call_bridge command
      {| game_state := JNull; turn_number := 0; game_history := [];
         bridge_process := p |} in
  (o, bridge_process self).

(** [__del__] invoked [n] times in a row. *)
Fixpoint shutdown_times (n : nat) : M unit :=
  match n with
  | O => mret tt
  | S n' => __del__;; shutdown_times n'
  end.

(** The two calls of a short game: Greece draws, then Persia moves on. *)
Definition two_good_calls : list event :=
  [ExecuteAction (JStr "Greece") (JStr "draw") JNull "2025-01-01T12:00:01";
   ExecuteAction (JStr "Persia") (JStr "next") JNull "2025-01-01T12:00:02"].

(** A call that the engine rejects, then a call that it accepts. *)
Definition bad_then_good_call : list event :=
  [ExecuteAction (JStr "Greece") (JStr "bogus") JNull "2025-01-01T12:00:01";
   ExecuteAction (JStr "Greece") (JStr "draw") JNull "2025-01-01T12:00:02"].

(** ** Further notions for runs and snapshots *)

(** A run that makes no [get_state] call. *)
Definition no_get_state (evs : list event) : bool :=
  forallb (λ e, match e with GetState => false | _ => true end) evs.

(** The records of [h] follow one another from the snapshot [origin] to the
    snapshot [current]: each record starts from the snapshot that the one
    before it ended with. *)
Fixpoint chained (origin : json) (h : list action_record) (current : json) : Prop :=
  match h with
  | [] => origin = current
  | r :: h' =>
      game_state_before r = origin ∧ chained (game_state_after r) h' current
  end.

(** [x or 0] can be added to a number. *)
Definition countable (x : json) : bool :=
  match (if truthy x then x else JInt 0) with
  | JBool _ | JInt _ | JFloat _ => true
  | _ => false
  end.

(** An entry of [units] that the totals of [_log_game_state] can take in:
    the reserve, a value that is not a list, or a list whose counted
    positions hold numbers or falsy values. *)
Definition tidy_units (item : string * json) : bool :=
  match item with
  | (city, JList unit_array) =>
      String.eqb city "reserve"
      || (((length unit_array <? 2)%nat
           || (countable (index unit_array 0) && countable (index unit_array 1)))
          && ((length unit_array <? 4)%nat
              || (countable (index unit_array 2) && countable (index unit_array 3))))
  | _ => true
  end.

(** A snapshot of the shape that [_log_game_state] expects: its [actions]
    entry, when present, is a mapping, and its [units] entry, when present
    and truthy, is a mapping of tidy entries. *)
Definition loggable (gs : gmap string json) : Prop :=
  (∃ acts, get_default gs "actions" (JDict ∅) = JDict acts) ∧
  (truthy (get_default gs "units" (JDict ∅)) = false ∨
   ∃ u, get_default gs "units" (JDict ∅) = JDict u ∧
        map_Forall (λ city v, tidy_units (city, v) = true) u).

(** A snapshot as the engine sends it in the middle of a game. *)
Definition board_snapshot : gmap string json :=
  {[ "active_player" := JStr "Persia";
     "actions" := JDict {[ "next" := JInt 1 ]};
     "units" := JDict {[ "Athenai" := JList [JInt 1; JInt 0; JInt 1; JInt 0];
                         "Sparta" := JList [JInt 1; JNull];
                         "reserve" := JList [JInt 6; JInt 20] ]} ]}.

(** ** The random agent of [random_agent.py] *)

(** The attributes of a [RandomAgent] that its methods read or write. *)
Record RandomAgent : Type := {
  name : string;
  decision_count : Z
}.

(** [v == 0], which [v == False] is as well: [False] is the integer 0. *)
Definition equals_zero (v : json) : bool :=
  match v with
  | JBool b => negb b
  | JInt n => Z.eqb n 0
  | JFloat bits => Z.eqb (Z.land bits (Z.ones 63)) 0
  | _ => false
  end.

(** [v == 1]; the float 1.0 has the bit pattern 0x3FF0000000000000. *)
Definition equals_one (v : json) : bool :=
  match v with
  | JBool b => b
  | JInt n => Z.eqb n 1
  | JFloat bits => Z.eqb bits 0x3FF0000000000000
  | _ => false
  end.

(** [v == []] *)
Definition equals_empty_list (v : json) : bool :=
  match v with
  | JList [] => true
  | _ => false
  end.

(** [v != 0 and v != False and v != [] and k != 'undo'] *)
Definition is_valid_action (kv : string * json) : bool :=
  negb (equals_zero kv.2) && negb (equals_zero kv.2)
  && negb (equals_empty_list kv.2) && negb (String.eqb kv.1 "undo").

(** [random.choice(seq)] on a sequence that is not empty, given as its first
    element and the rest; [r] is the draw of the generator and any position
    of the sequence can come out. *)
Definition random_choice {A : Type} (first : A) (rest : list A) (r : nat) : A :=
  nth (r mod length (first :: rest)) (first :: rest) first.

(** The argument that [choose_action] sends along with an action whose
    entry in the action mapping is [action_args]. *)
Definition choose_arg (action_args : json) (r : nat) : json :=
  match action_args with
  | JList (x :: xs) => random_choice x xs r
  | JBool _ | JInt _ | JStr _ =>
      if equals_zero action_args || equals_one action_args
         || equals_zero action_args
      then JNull else action_args
  | _ => JNull
  end.

(** [choose_action]; [r1] and [r2] are the draws of the two calls of
    [random.choice]. The keys of a dict come in insertion order, which a
    [gmap] does not keep: a draw may select another key here than there,
    while the keys that can come out are the same. *)
Definition choose_action (r1 r2 : nat) (agent : RandomAgent)
    (game_env : GameEnvironment)
    : outcome (option (string * json)) * RandomAgent * GameEnvironment :=
  let agent := {| name := name agent;
                  decision_count := decision_count agent + 1 |} in
  match get_actions false game_env with
  | (Raised e, game_env) => (Raised e, agent, game_env)
  | (Returned actions_result, game_env) =>
      if negb (truthy (get actions_result "success")) then
        (Returned None, agent, game_env)
      else
        let actions := get_default actions_result "actions" (JDict ∅) in
        if negb (truthy actions) then (Returned None, agent, game_env)
        else
          match dict_method actions "items" with
          | Raised e => (Raised e, agent, game_env)
          | Returned items =>
              let valid_actions :=
                filter (λ kv, is_valid_action kv = true) items in
              match map_to_list valid_actions with
              | [] => (Returned None, agent, game_env)
              | kv :: rest =>
                  let '(action_name, action_args) := random_choice kv rest r1 in
                  (Returned (Some (action_name, choose_arg action_args r2)),
                   agent, game_env)
              end
          end
  end.

(** [game_started]: the greeting concatenates [active_player] to a string,
    which raises for a truthy value that is not a string. *)
Definition game_started (agent : RandomAgent) (game_env : GameEnvironment)
    : outcome unit * RandomAgent * GameEnvironment :=
  let agent := {| name := name agent; decision_count := 0 |} in
  match get_active_player game_env with
  | (Raised e, game_env) => (Raised e, agent, game_env)
  | (Returned active_player, game_env) =>
      if truthy active_player then
        match active_player with
        | JStr _ => (Returned tt, agent, game_env)
        | _ => (Raised (TypeError ("can only concatenate str (not "
                          +:+ dquote +:+ type_name active_player +:+ dquote
                          +:+ ") to str")), agent, game_env)
        end
      else (Returned tt, agent, game_env)
  end.

(** The loop [for i in range(5)] of [test_random_agent], with [n] rounds
    left and [i] the index of the round; [draws i] are the draws available
    to the agent in round [i], and [clock i] is the time of its action. *)
Fixpoint random_rounds (n i : nat) (draws : nat → nat * nat) (clock : nat → string)
    (agent : RandomAgent) (game : GameEnvironment)
    : outcome unit * RandomAgent * GameEnvironment :=
  match n with
  | O => (Returned tt, agent, game)
  | S n' =>
      match is_game_over game with
      | (Raised e, game) => (Raised e, agent, game)
      | (Returned over, game) =>
          if truthy over then (Returned tt, agent, game)
          else
            match get_active_player game with
            | (Raised e, game) => (Raised e, agent, game)
            | (Returned player, game) =>
                match get_prompt game with
                | (Raised e, game) => (Raised e, agent, game)
                | (Returned _, game) =>
                    match choose_action (draws i).1 (draws i).2 agent game with
                    | (Raised e, agent, game) => (Raised e, agent, game)
                    | (Returned None, agent, game) => (Returned tt, agent, game)
                    | (Returned (Some (action_name, action_arg)), agent, game) =>
                        match execute_action player (JStr action_name)
                                action_arg (clock i) game with
                        | (Raised e, game) => (Raised e, agent, game)
                        | (Returned result, game) =>
                            if negb (truthy (get result "success")) then
                              (Returned tt, agent, game)
                            else random_rounds n' (S i) draws clock agent game
                        end
                    end
                end
            end
      end
  end.

(** [test_random_agent] from the construction of the game on; it ends with
    the agent and the game it has played, when the game could be built. *)
Definition test_random_agent (popen : outcome Popen)
    (draws : nat → nat * nat) (clock : nat → string)
    : outcome unit * option (RandomAgent * GameEnvironment) :=
  match __init__ popen with
  | Raised e => (Raised e, None)
  | Returned game =>
      let agent := {| name := "TestBot"; decision_count := 0 |} in
      match new_game (JInt 54321) (JStr "Standard") JNull game with
      | (Raised e, game) => (Raised e, Some (agent, game))
      | (Returned result, game) =>
          if negb (truthy (get result "success")) then
            (Returned tt, Some (agent, game))
          else
            match game_started agent game with
            | (Raised e, agent, game) => (Raised e, Some (agent, game))
            | (Returned _, agent, game) =>
                match random_rounds 5 0 draws clock agent game with
                | (Raised e, agent, game) => (Raised e, Some (agent, game))
                | (Returned _, agent, game) =>
                    match get_winner game with
                    | (Raised e, game) => (Raised e, Some (agent, game))
                    | (Returned _, game) => (Returned tt, Some (agent, game))
                    end
                end
            end
      end
  end.

(** ** The demonstration game of [game_env.py] *)

(** The loop [for i in range(3)] of [main], with [n] rounds left; it picks
    among all the actions [get_actions] returns, disabled ones included. *)
Fixpoint main_rounds (n i : nat) (draws : nat → nat * nat) (clock : nat → string)
    (game : GameEnvironment) : outcome unit * GameEnvironment :=
  match n with
  | O => (Returned tt, game)
  | S n' =>
      match get_actions false game with
      | (Raised e, game) => (Raised e, game)
      | (Returned actions_result, game) =>
          if negb (truthy (get actions_result "success")) then (Returned tt, game)
          else
            let actions := get_default actions_result "actions" (JDict ∅) in
            match dict_method actions "keys" with
            | Raised e => (Raised e, game)
            | Returned items =>
                match map_to_list items with
                | [] => (Returned tt, game)
                | kv :: rest =>
                    let '(action_name, action_args) :=
                      random_choice kv rest (draws i).1 in
                    let arg :=
                      match action_args with
                      | JList (x :: xs) => random_choice x xs (draws i).2
                      | _ => JNull
                      end in
                    match get_active_player game with
                    | (Raised e, game) => (Raised e, game)
                    | (Returned player, game) =>
                        match execute_action player (JStr action_name) arg
                                (clock i) game with
                        | (Raised e, game) => (Raised e, game)
                        | (Returned result, game) =>
                            if negb (truthy (get result "success")) then
                              (Returned tt, game)
                            else
                              match get_prompt game with
                              | (Raised e, game) => (Raised e, game)
                              | (Returned _, game) =>
                                  match is_game_over game with
                                  | (Raised e, game) => (Raised e, game)
                                  | (Returned over, game) =>
                                      if truthy over then
                                        match get_winner game with
                                        | (Raised e, game) => (Raised e, game)
                                        | (Returned _, game) => (Returned tt, game)
                                        end
                                      else main_rounds n' (S i) draws clock game
                                  end
                              end
                        end
                    end
                end
            end
      end
  end.

(** [main] from the construction of the game on; it ends with the game it
    has played, when the game could be built. *)
Definition main (popen : outcome Popen) (draws : nat → nat * nat)
    (clock : nat → string) : outcome unit * option GameEnvironment :=
  match __init__ popen with
  | Raised e => (Raised e, None)
  | Returned game =>
      match new_game (JInt 12345) (JStr "Standard") JNull game with
      | (Raised e, game) => (Raised e, Some game)
      | (Returned result, game) =>
          if negb (truthy (get result "success")) then (Returned tt, Some game)
          else
            match get_active_player game with
            | (Raised e, game) => (Raised e, Some game)
            | (Returned _, game) =>
                match get_prompt game with
                | (Raised e, game) => (Raised e, Some game)
                | (Returned _, game) =>
                    match main_rounds 3 0 draws clock game with
                    | (Raised e, game) => (Raised e, Some game)
                    | (Returned _, game) =>
                        match is_game_over game with
                        | (Raised e, game) => (Raised e, Some game)
                        | (Returned _, game) => (Returned tt, Some game)
                        end
                    end
                end
            end
      end
  end.

(** ** More sample data *)

(** [{"success": true, "gameState": [1]}] *)
Definition line_ok_list : string :=
  "{" +:+ dquote +:+ "success" +:+ dquote +:+ ": true, "
      +:+ dquote +:+ "gameState" +:+ dquote +:+ ": [1]}".

(** [{"success": true, "gameState": {"active_player": "Greece",
    "actions": {"draw": 1, "undo": 1}}}] *)
Definition line_ok_draw : string :=
  "{" +:+ dquote +:+ "success" +:+ dquote +:+ ": true, "
      +:+ dquote +:+ "gameState" +:+ dquote +:+ ": {"
      +:+ dquote +:+ "active_player" +:+ dquote +:+ ": "
      +:+ dquote +:+ "Greece" +:+ dquote +:+ ", "
      +:+ dquote +:+ "actions" +:+ dquote +:+ ": {"
      +:+ dquote +:+ "draw" +:+ dquote +:+ ": 1, "
      +:+ dquote +:+ "undo" +:+ dquote +:+ ": 1}}}".

Definition snapshot_draw : gmap string json :=
  {[ "active_player" := JStr "Greece";
     "actions" := JDict {[ "draw" := JInt 1; "undo" := JInt 1 ]} ]}.

(** [sample_loads] with the two lines above. *)
Definition more_loads (s : string) : outcome json :=
  if String.eqb s line_ok_list then
    Returned (JDict {[ "success" := JBool true; "gameState" := JList [JInt 1] ]})
  else if String.eqb s line_ok_draw then
    Returned (JDict {[ "success" := JBool true;
                       "gameState" := JDict snapshot_draw ]})
  else sample_loads s.

(** A session that holds [snapshot_draw]. *)
Definition draw_session : GameEnvironment :=
  {| game_state := JDict snapshot_draw; turn_number := 0; game_history := [];
     bridge_process := Some (live_process [line_ok_persia]) |}.

(** A session whose snapshot offers nothing but [undo] and a disabled
    action. *)
Definition stuck_session : GameEnvironment :=
  {| game_state := JDict {[ "active_player" := JStr "Greece";
                            "actions" := JDict {[ "undo" := JInt 1;
                                                  "city" := JList [] ]} ]};
     turn_number := 0; game_history := [];
     bridge_process := Some (live_process []) |}.

(** The draws and the clock of the sample games. *)
Definition sample_draws (i : nat) : nat * nat := (i, S i).

Definition sample_clock (i : nat) : string := "2025-01-01T12:00:00".

(** The engine process of [self] is terminated: no process was ever
    started, or the process has exited, or [terminate()] has sent it the
    termination signal. *)
Definition terminated (self : GameEnvironment) : bool :=
  match bridge_process self with
  | None => true
  | Some p =>
      match returncode p with
      | Some _ => true
      | None => sigterm p
      end
  end.

(** A child that answers nothing and outlives every [wait(timeout=2)]. *)
Definition hung_process : Popen :=
  {| returncode := None; stdin_error := None; stdin := []; stdout := [];
     wait_exit := None; sigterm := false |}.

Definition hung_session : GameEnvironment :=
  {| game_state := snapshot_greece; turn_number := 1;
     game_history := [sample_record]; bridge_process := Some hung_process |}.

(** A value of the caller that the log lines of [execute_action] and of
    [_call_bridge] can format and that [json.dumps] can write: a scalar,
    an [int] among them only within the limit of [str]. *)
Definition formattable (v : json) : bool :=
  match v with
  | JInt n => fits_str n
  | JList _ | JDict _ => false
  | _ => true
  end.

(** A snapshot whose first city holds more armies than a float can
    express, and whose second city counts in halves. *)
Definition overflow_snapshot : gmap string json :=
  {[ "units" := JDict {[ "Athenai" := JList [JInt (10 ^ 400); JInt 0];
                         "Sparta" := JList [JFloat 4609434218613702656;
                                            JInt 0] ]} ]}.

(** A snapshot whose armies add up to an [int] of 4301 digits. *)
Definition crowded_snapshot : gmap string json :=
  {[ "units" := JDict {[ "Athenai" := JList [JInt (10 ^ 4300 - 1); JInt 0];
                         "Sparta" := JList [JInt 1; JInt 0] ]} ]}.

(** ** Proof tactics *)

(** Unfolding the operations of [M]. *)
Ltac unfold_M :=
  unfold mbind, M_bind, mret, M_ret, get_self, update, lift, try_except; simpl.



(** ** Properties of the exchange *)

(** [_call_bridge] reads and writes no attribute but [bridge_process]. *)
Lemma _call_bridge_exchange command self :
  _call_bridge command self =
    (fst (exchange command (bridge_process self)),
     set_bridge_process (snd (exchange command (bridge_process self))) self).
Proof.
  destruct self as [gs tn gh [[rc err inp out we st]|]]; [|reflexivity].
  unfold exchange, _call_bridge, mbind, M_bind, get_self, process_running,
    try_except, on_process, lift, mret, M_ret, stdin_write, stdout_readline,
    set_bridge_process; simpl.
  destruct rc; [reflexivity|]; simpl.
  destruct (describe_command command); [|reflexivity].
  destruct err; [reflexivity|]; simpl.
  destruct out as [|[line|msg] rest]; simpl; try reflexivity.
  destruct (String.eqb line ""); [reflexivity|].
  destruct (json_loads (str_strip line)) as [response|[]]; try reflexivity.
  destruct (dict_method response "get") as [d|[]]; reflexivity.
Qed.


(** The head of [_call_bridge] never raises on a command of the class. *)
Lemma describe_command_issued command :
  issued command → describe_command command = Returned tt.
Proof. by intros []. Qed.

Lemma exchange_returns command p :
  issued command → ∃ result, fst (exchange command p) = Returned result.
Proof.
  intros Hc. unfold exchange, _call_bridge, mbind, M_bind, get_self,
    process_running, try_except, on_process, lift, mret, M_ret,
    stdin_write, stdout_readline, set_bridge_process; simpl.
  rewrite (describe_command_issued _ Hc).
  destruct p as [[rc err inp out we st]|]; simpl; [|by eexists].
  destruct rc; simpl; [by eexists|].
  destruct err; simpl; [by eexists|].
  destruct out as [|[line|msg] rest]; simpl; try by eexists.
  destruct (String.eqb line ""); [by eexists|].
  destruct (json_loads (str_strip line)) as [response|[]]; simpl; try by eexists.
  destruct (dict_method response "get") as [d|[]]; simpl; by eexists.
Qed.

Lemma exchange_ok_exchange command self :
  exchange_ok command self =
    match fst (exchange command (bridge_process self)) with
    | Returned result => truthy (get result "success")
    | Raised _ => false
    end.
Proof. unfold exchange_ok. by rewrite _call_bridge_exchange. Qed.

(** ** Properties of [execute_action] *)

Lemma execute_action_turn_number player action arg now self :
  turn_number (snd (execute_action player action arg now self)) =
    turn_number self + 1.
Proof.
  unfold execute_action, _log_game_state. unfold_M.
  rewrite _call_bridge_exchange; simpl.
  destruct (exchange _ _) as [[result|e] p']; simpl; [|done].
  repeat (case_match; simplify_eq/=; try done).
Qed.


Lemma execute_action_succeeded player action arg now self :
  exchange_ok (action_command player action arg) self = true →
  ∃ result p',
    fst (_call_bridge (action_command player action arg) self) = Returned result ∧
    snd (execute_action player action arg now self) =
      {| game_state := get result "gameState";
         turn_number := turn_number self + 1;
         game_history := game_history self ++
           [{| turn := turn_number self + 1; player := player;
               action := action; arg := arg; timestamp := now;
               game_state_before := game_state self;
               game_state_after := get result "gameState" |}];
         bridge_process := p' |}.
Proof.
  rewrite exchange_ok_exchange. unfold execute_action, _log_game_state.
  unfold_M. rewrite !_call_bridge_exchange; simpl.
  destruct (exchange _ _) as [[result|e] p']; simpl; [|done].
  intros ->. exists result, p'. split; [done|].
  repeat (case_match; simplify_eq/=; try done).
Qed.

Lemma execute_action_failed player action arg now self :
  exchange_ok (action_command player action arg) self = false →
  ∃ result p',
    fst (_call_bridge (action_command player action arg) self) = Returned result ∧
    truthy (get result "success") = false ∧
    execute_action player action arg now self =
      (Returned result,
       {| game_state := game_state self;
          turn_number := turn_number self + 1;
          game_history := game_history self;
          bridge_process := p' |}).
Proof.
  rewrite exchange_ok_exchange. unfold execute_action. unfold_M.
  rewrite !_call_bridge_exchange; simpl.
  destruct (exchange_returns (action_command player action arg)
              (bridge_process self)) as [result Hr]; [apply issued_action|].
  destruct (exchange _ _) as [o p']; cbn [fst snd] in *; subst o.
  intros Hs. exists result, p'. by rewrite Hs.
Qed.

(** ** Properties of [new_game] and [get_state] *)

Lemma new_game_succeeded seed scenario options self :
  exchange_ok (setup_command seed scenario (default_options options)) self = true →
  ∃ result p',
    snd (new_game seed scenario options self) =
      {| game_state := get result "gameState"; turn_number := 0;
         game_history := []; bridge_process := p' |}.
Proof.
  rewrite exchange_ok_exchange. unfold new_game, _log_game_state.
  unfold_M. rewrite !_call_bridge_exchange; simpl.
  destruct (exchange _ _) as [[result|e] p']; simpl; [|done].
  intros ->. exists result, p'.
  repeat (case_match; simplify_eq/=; try done).
Qed.

Lemma new_game_failed seed scenario options self :
  exchange_ok (setup_command seed scenario (default_options options)) self = false →
  ∃ result p',
    fst (_call_bridge (setup_command seed scenario (default_options options)) self)
      = Returned result ∧
    truthy (get result "success") = false ∧
    new_game seed scenario options self =
      (Returned result,
       {| game_state := game_state self; turn_number := 0;
          game_history := []; bridge_process := p' |}).
Proof.
  rewrite exchange_ok_exchange. unfold new_game. unfold_M.
  rewrite !_call_bridge_exchange; simpl.
  destruct (exchange_returns (setup_command seed scenario (default_options options))
              (bridge_process self)) as [result Hr]; [apply issued_setup|].
  destruct (exchange _ _) as [o p']; cbn [fst snd] in *; subst o.
  intros Hs. exists result, p'. by rewrite Hs.
Qed.

Lemma get_state_counters self :
  turn_number (snd (get_state self)) = turn_number self ∧
  game_history (snd (get_state self)) = game_history self.
Proof.
  unfold get_state. unfold_M. rewrite _call_bridge_exchange; simpl.
  destruct (exchange _ _) as [[result|e] p']; simpl; [|done].
  by destruct (truthy _).
Qed.

Lemma step_counters e self :
  action_ok e self = None →
  turn_number (step e self) = turn_number self ∧
  game_history (step e self) = game_history self.
Proof.
  destruct e as [| |p]; simpl; [done| |].
  - intros _. apply get_state_counters.
  - intros _. by destruct (bridge_process self).
Qed.


(** ** Properties of runs *)

Lemma step_execute_action player action arg now self :
  let e := ExecuteAction player action arg now in
  turn_number (step e self) = turn_number self + 1 ∧
  game_history (step e self) = game_history self ++
    (if exchange_ok (action_command player action arg) self then
       [{| turn := turn_number self + 1; player := player; action := action;
           arg := arg; timestamp := now;
           game_state_before := game_state self;
           game_state_after := game_state (step e self) |}]
     else []).
Proof.
  simpl. destruct (exchange_ok _ self) eqn:Hok.
  - destruct (execute_action_succeeded _ _ _ now _ Hok) as (result & p' & _ & ->).
    done.
  - destruct (execute_action_failed _ _ _ now _ Hok) as (result & p' & _ & _ & ->).
    simpl. by rewrite app_nil_r.
Qed.

(** The history a run leaves is the history it started from followed by
    its turn records, and the counter has moved by one per attempt. *)
Lemma run_turn_records evs self :
  turn_number (run evs self) = turn_number self + Z.of_nat (attempts evs) ∧
  game_history (run evs self) =
    game_history self ++ turn_records evs self (turn_number self).
Proof.
  revert self. induction evs as [|e evs IH]; intros self; simpl.
  - split; [lia|by rewrite app_nil_r].
  - destruct (IH (step e self)) as [IHt IHh]. rewrite IHt, IHh.
    destruct e as [player action arg now| |p].
    + destruct (step_execute_action player action arg now self) as [Ht Hh].
      rewrite Ht, Hh, <- app_assoc. split; [lia|done].
    + destruct (step_counters GetState self eq_refl) as [-> ->].
      split; [lia|done].
    + destruct (step_counters (Engine p) self eq_refl) as [-> ->].
      split; [lia|done].
Qed.

Lemma turn_records_length evs self attempt :
  length (turn_records evs self attempt) = successes evs self.
Proof.
  revert self attempt. induction evs as [|e evs IH]; intros self attempt; [done|].
  destruct e as [player action arg now| |p]; simpl; [|apply IH..].
  rewrite length_app, IH. by destruct (exchange_ok _ self).
Qed.

Lemma turn_records_bounds evs self attempt r :
  r ∈ turn_records evs self attempt →
  attempt < turn r ≤ attempt + Z.of_nat (attempts evs).
Proof.
  revert self attempt. induction evs as [|e evs IH]; intros self attempt; simpl.
  - by intros ?%elem_of_nil.
  - destruct e as [player action arg now| |p]; [|apply IH..].
    rewrite elem_of_app. intros [Hr|Hr].
    + destruct (exchange_ok _ self); [|by apply elem_of_nil in Hr].
      apply list_elem_of_singleton in Hr as ->. simpl. lia.
    + apply IH in Hr. lia.
Qed.

Lemma turn_records_sorted evs self attempt :
  StronglySorted (λ r1 r2, turn r1 < turn r2) (turn_records evs self attempt).
Proof.
  revert self attempt. induction evs as [|e evs IH]; intros self attempt; simpl.
  - constructor.
  - destruct e as [player action arg now| |p]; [|apply IH..].
    apply StronglySorted_app_2.
    + intros r1 r2 Hr1 Hr2. apply turn_records_bounds in Hr2.
      destruct (exchange_ok _ self); [|by apply elem_of_nil in Hr1].
      apply list_elem_of_singleton in Hr1 as ->. simpl. lia.
    + destruct (exchange_ok _ self); repeat constructor.
    + apply IH.
Qed.

Lemma all_succeed_successes evs self :
  all_succeed evs self = true → successes evs self = attempts evs.
Proof.
  revert self. induction evs as [|e evs IH]; intros self; [done|].
  destruct e as [player action arg now| |p]; simpl; [|apply IH..].
  destruct (exchange_ok _ self); [|done]. intros ?%IH. by f_equal.
Qed.

Lemma all_succeed_gapless evs self attempt i r :
  all_succeed evs self = true →
  turn_records evs self attempt !! i = Some r →
  turn r = attempt + Z.of_nat i + 1.
Proof.
  revert self attempt i. induction evs as [|e evs IH]; intros self attempt i; [done|].
  destruct e as [player action arg now| |p]; simpl; [|apply IH..].
  destruct (exchange_ok _ self); [|done]. intros Hall. destruct i as [|i]; simpl.
  - intros [= <-]. simpl. lia.
  - intros Hr. rewrite (IH _ _ _ Hall Hr). lia.
Qed.


(** ** The claims *)

(** C1 (amended). A call of [execute_action] whose exchange fails returns
    the failure result and leaves [game_history] and [game_state] as they
    were, while [turn_number] has moved on by one: the counter is advanced
    before the command is sent and counts attempts. *)
Theorem execute_action_failure_effect player action arg now self :
  exchange_ok (action_command player action arg) self = false →
  ∃ result self',
    execute_action player action arg now self = (Returned result, self') ∧
    fst (_call_bridge (action_command player action arg) self) = Returned result ∧
    truthy (get result "success") = false ∧
    game_history self' = game_history self ∧
    game_state self' = game_state self ∧
    turn_number self' = turn_number self + 1.
Proof.
  intros Hfail.
  destruct (execute_action_failed _ _ _ now _ Hfail) as (result & p' & Hr & Hs & ->).
  by eexists _, _.
Qed.

(** C2 (amended). A call of [new_game] whose exchange fails returns the
    failure result to the caller and leaves [game_state] as it was, while
    [turn_number] is 0 and [game_history] is empty afterwards: both are
    reset before the command is sent. *)
Theorem new_game_failure_effect seed scenario options self :
  exchange_ok (setup_command seed scenario (default_options options)) self = false →
  ∃ result self',
    new_game seed scenario options self = (Returned result, self') ∧
    fst (_call_bridge (setup_command seed scenario (default_options options)) self)
      = Returned result ∧
    truthy (get result "success") = false ∧
    game_state self' = game_state self ∧
    turn_number self' = 0 ∧
    game_history self' = [].
Proof.
  intros Hfail.
  destruct (new_game_failed _ _ _ _ Hfail) as (result & p' & Hr & Hs & ->).
  by eexists _, _.
Qed.

(** C3. After a successful [new_game], a run in which every
    [execute_action] call succeeds, and which makes N such calls, ends with
    [turn_number] equal to N and [game_history] of that length. *)
Theorem turn_number_after_successes seed scenario options evs self :
  exchange_ok (setup_command seed scenario (default_options options)) self = true →
  all_succeed evs (snd (new_game seed scenario options self)) = true →
  turn_number (run evs (snd (new_game seed scenario options self)))
    = Z.of_nat (attempts evs) ∧
  Z.of_nat (length (game_history (run evs (snd (new_game seed scenario options self)))))
    = turn_number (run evs (snd (new_game seed scenario options self))).
Proof.
  intros Hsetup Hall.
  destruct (new_game_succeeded _ _ _ _ Hsetup) as (result & p' & Hstart).
  destruct (run_turn_records evs (snd (new_game seed scenario options self)))
    as [Ht Hh].
  rewrite Ht, Hh, Hstart; simpl. rewrite <- Hstart.
  rewrite turn_records_length, (all_succeed_successes _ _ Hall). lia.
Qed.

(** C4 (amended). After a successful [new_game] and any run of
    [execute_action] calls, successful or not, [game_history] holds exactly
    one record per successful call, in order; each record carries the
    player, the action, the argument and the time stamp of its call and the
    snapshots held just before and just after it; its [turn] is the number
    of [execute_action] calls made since [new_game] up to and including its
    own, so the recorded turns are positive, strictly increasing and at most
    [turn_number], and they are 1, 2, 3, ... without gaps when no call has
    failed. *)
Theorem history_records_successful_actions seed scenario options evs self :
  exchange_ok (setup_command seed scenario (default_options options)) self = true →
  game_history (run evs (snd (new_game seed scenario options self)))
    = turn_records evs (snd (new_game seed scenario options self)) 0 ∧
  length (game_history (run evs (snd (new_game seed scenario options self))))
    = successes evs (snd (new_game seed scenario options self)) ∧
  turn_number (run evs (snd (new_game seed scenario options self)))
    = Z.of_nat (attempts evs) ∧
  StronglySorted (λ r1 r2, turn r1 < turn r2)
    (game_history (run evs (snd (new_game seed scenario options self)))) ∧
  (∀ r, r ∈ game_history (run evs (snd (new_game seed scenario options self))) →
     1 ≤ turn r ≤ turn_number (run evs (snd (new_game seed scenario options self)))) ∧
  (all_succeed evs (snd (new_game seed scenario options self)) = true →
   ∀ i r,
     game_history (run evs (snd (new_game seed scenario options self))) !! i = Some r →
     turn r = Z.of_nat i + 1).
Proof.
  intros Hsetup.
  destruct (new_game_succeeded _ _ _ _ Hsetup) as (result & p' & Hstart).
  set (started := snd (new_game seed scenario options self)) in *.
  destruct (run_turn_records evs started) as [Ht Hh].
  assert (turn_number started = 0) as Ht0 by by rewrite Hstart.
  assert (game_history started = []) as Hh0 by by rewrite Hstart.
  rewrite Ht0 in *. rewrite Hh0 in Hh. simpl in Hh. rewrite Ht, Hh.
  split_and!.
  - done.
  - apply turn_records_length.
  - lia.
  - apply turn_records_sorted.
  - intros r Hr%turn_records_bounds. lia.
  - intros Hall i r Hr. rewrite (all_succeed_gapless _ _ _ _ _ Hall Hr). lia.
Qed.


Lemma filter_undo_lookup (acts : gmap string json) k :
  filter (λ kv, kv.1 ≠ "undo") acts !! k =
    if decide (k = "undo") then None else acts !! k.
Proof.
  apply option_eq; intros v. rewrite map_lookup_filter_Some; simpl.
  destruct (decide (k = "undo")) as [->|Hk]; split.
  - by intros [_ ?].
  - done.
  - by intros [? _].
  - done.
Qed.

Lemma truthy_dict_false (d : gmap string json) :
  truthy (JDict d) = false → d = ∅.
Proof.
  simpl. intros Hd%negb_false_iff%bool_decide_eq_true.
  by apply map_size_empty_iff.
Qed.

(** C6. With a snapshot whose action mapping is [acts] (the empty mapping
    when the snapshot has none), [get_actions] returns, and the action
    mapping a caller reads out of the result never has the key [undo] when
    [include_undo] is false, has it exactly when [acts] has it when
    [include_undo] is true, and agrees with [acts] on every other key in
    both cases; [self] is not modified. A snapshot that is not empty gives
    a successful result that carries the mapping under [actions]. *)
Theorem get_actions_undo_filter self gs acts :
  game_state self = JDict gs →
  get_default gs "actions" (JDict ∅) = JDict acts →
  ∃ result_without result_with a_without a_with,
    get_actions false self = (Returned result_without, self) ∧
    get_actions true self = (Returned result_with, self) ∧
    returned_actions result_without = JDict a_without ∧
    returned_actions result_with = JDict a_with ∧
    a_without !! "undo" = None ∧
    (is_Some (a_with !! "undo") ↔ is_Some (acts !! "undo")) ∧
    (∀ k, k ≠ "undo" → a_without !! k = acts !! k ∧ a_with !! k = acts !! k) ∧
    (truthy (JDict gs) = true →
       result_without !! "actions" = Some (JDict a_without) ∧
       result_with !! "actions" = Some (JDict a_with) ∧
       result_without !! "success" = Some (JBool true) ∧
       result_with !! "success" = Some (JBool true)).
Proof.
  intros Hgs Hacts. unfold get_actions. unfold_M. rewrite Hgs.
  destruct (truthy (JDict gs)) eqn:Ht; simpl.
  - rewrite Hacts; simpl.
    eexists _, _, (filter (λ kv, kv.1 ≠ "undo") acts), acts.
    split_and!; try done.
    + by rewrite filter_undo_lookup.
    + intros k Hk. rewrite filter_undo_lookup. by case_decide.
  - apply truthy_dict_false in Ht as ->.
    assert (acts = ∅) as -> by (by injection Hacts).
    eexists _, _, ∅, ∅. split_and!; try done.
Qed.

(** A session starts without a snapshot, at turn 0, with an empty
    history. *)
Lemma __init___state popen self :
  __init__ popen = Returned self →
  game_state self = JNull ∧ turn_number self = 0 ∧ game_history self = [].
Proof. destruct popen; simpl; [|done]. by intros [= <-]. Qed.

(** C7. Without a snapshot ([game_state] is [None]), [get_actions] returns
    the failure result [{'success': False, 'error': 'No active game'}] and
    does not modify [self]. *)
Theorem get_actions_without_snapshot include_undo self :
  game_state self = JNull →
  get_actions include_undo self = (Returned (failure "No active game"), self).
Proof. intros Hgs. unfold get_actions. unfold_M. by rewrite Hgs. Qed.

(** C10. Without a snapshot the accessors return their defaults:
    [is_game_over] returns [False], [get_winner] and [get_active_player]
    return [None], and [get_prompt] returns the empty string. *)
Theorem accessors_without_snapshot self :
  game_state self = JNull →
  is_game_over self = (Returned (JBool false), self) ∧
  get_winner self = (Returned JNull, self) ∧
  get_active_player self = (Returned JNull, self) ∧
  get_prompt self = (Returned (JStr ""), self).
Proof.
  intros Hgs. unfold is_game_over, get_winner, get_active_player, get_prompt.
  unfold_M. by rewrite Hgs.
Qed.

(** [get_winner] hands out the snapshot's [winner] entry as it is. *)
Lemma get_winner_reads_snapshot self gs :
  game_state self = JDict gs →
  truthy (JDict gs) = true →
  get_winner self = (Returned (get gs "winner"), self).
Proof.
  intros Hgs Ht. unfold get_winner. unfold_M. by rewrite Hgs, Ht.
Qed.



(** [__del__] never raises, whatever the process does. *)
Lemma __del___returns self : ∃ self', __del__ self = (Returned tt, self').
Proof.
  unfold __del__. unfold_M.
  destruct (process_running self) eqn:Hrun; [|by eexists].
  rewrite _call_bridge_exchange.
  destruct (exchange_returns quit_command (bridge_process self) issued_quit)
    as [result Hr].
  assert (is_Some (snd (exchange quit_command (bridge_process self)))) as [p' Hp'].
  { pose proof (_call_bridge_exchange quit_command self) as Hex.
    unfold process_running in Hrun.
    destruct (bridge_process self) as [[rc err inp out we st]|] eqn:Hbp; [|done].
    simpl in Hrun. destruct rc; [done|].
    unfold exchange, _call_bridge, mbind, M_bind, get_self,
      process_running, try_except, on_process, lift, mret, M_ret,
      stdin_write, stdout_readline, set_bridge_process; simpl.
    rewrite (describe_command_issued _ issued_quit).
    destruct err; simpl; [by eexists|].
    destruct out as [|[line|rerr] rest]; simpl; try by eexists.
    destruct (String.eqb line ""); [by eexists|].
    destruct (json_loads (str_strip line)) as [response|[]]; simpl; try by eexists.
    destruct (dict_method response "get") as [d|[]]; simpl; by eexists. }
  destruct (exchange _ _) as [o bp']; cbn [fst snd] in *; subst o bp'.
  unfold on_process, set_bridge_process, wait, terminate; simpl.
  destruct p' as [[code|] err' inp' out' [code'|] st']; simpl; by eexists.
Qed.

(** ** Further properties of the session bridge *)

Lemma new_game_counters seed scenario options self :
  turn_number (snd (new_game seed scenario options self)) = 0 ∧
  game_history (snd (new_game seed scenario options self)) = [].
Proof.
  unfold new_game, _log_game_state. unfold_M.
  rewrite _call_bridge_exchange; simpl.
  destruct (exchange _ _) as [[result|e] p']; simpl; [|done].
  repeat (case_match; simplify_eq/=; try done).
Qed.

(** X1. [new_game] leaves [turn_number] at 0 and [game_history] empty in
    every case: whatever the session held, whether the exchange succeeds or
    fails, and also when the call raises while it logs the new snapshot. *)
Theorem new_game_resets_counters seed scenario options self :
  turn_number (snd (new_game seed scenario options self)) = 0 ∧
  game_history (snd (new_game seed scenario options self)) = [].
Proof.
  unfold new_game, _log_game_state. unfold_M.
  rewrite _call_bridge_exchange; simpl.
  destruct (exchange _ _) as [[result|e] p']; simpl; [|done].
  repeat (case_match; simplify_eq/=; try done).
Qed.

(** The state after a [new_game] whose exchange succeeded, with the response
    it came from. *)
Lemma new_game_succeeded_with seed scenario options self :
  exchange_ok (setup_command seed scenario (default_options options)) self = true →
  ∃ result p',
    fst (_call_bridge (setup_command seed scenario (default_options options)) self)
      = Returned result ∧
    snd (new_game seed scenario options self) =
      {| game_state := get result "gameState"; turn_number := 0;
         game_history := []; bridge_process := p' |}.
Proof.
  rewrite exchange_ok_exchange. unfold new_game, _log_game_state.
  unfold_M. rewrite !_call_bridge_exchange; simpl.
  destruct (exchange _ _) as [[result|e] p']; simpl; [|done].
  intros ->. exists result, p'. split; [done|].
  repeat (case_match; simplify_eq/=; try done).
Qed.

(** X2. After a [new_game] whose exchange succeeds, the snapshot is the
    [gameState] entry of the response, taken as it is; when the response has
    no such entry the session holds no snapshot, and [get_actions] then
    fails with [No active game]. *)
Theorem new_game_adopts_snapshot seed scenario options self :
  exchange_ok (setup_command seed scenario (default_options options)) self = true →
  ∃ result,
    fst (_call_bridge (setup_command seed scenario (default_options options)) self)
      = Returned result ∧
    game_state (snd (new_game seed scenario options self)) = get result "gameState" ∧
    (result !! "gameState" = None →
     ∀ include_undo,
       get_actions include_undo (snd (new_game seed scenario options self))
         = (Returned (failure "No active game"),
            snd (new_game seed scenario options self))).
Proof.
  intros Hok.
  destruct (new_game_succeeded_with _ _ _ _ Hok) as (result & p' & Hr & ->).
  exists result. split; [done|]. split; [done|].
  intros Hnone include_undo. unfold get, get_default. rewrite Hnone. simpl.
  unfold get_actions. by unfold_M.
Qed.


(** X3. [get_state] never raises and never touches [turn_number] or
    [game_history]; it returns the result of the exchange, replaces the
    snapshot by the [gameState] entry of a successful response, and keeps the
    snapshot when the exchange fails. *)
Theorem get_state_effect self :
  ∃ result self',
    get_state self = (Returned result, self') ∧
    fst (_call_bridge state_command self) = Returned result ∧
    turn_number self' = turn_number self ∧
    game_history self' = game_history self ∧
    game_state self' =
      (if truthy (get result "success") then get result "gameState"
       else game_state self).
Proof.
  unfold get_state. unfold_M. rewrite !_call_bridge_exchange; simpl.
  destruct (exchange_returns state_command (bridge_process self) issued_state)
    as [result Hr].
  destruct (exchange _ _) as [o p']; cbn [fst snd] in *; subst o.
  destruct (truthy (get result "success")) eqn:Hs; simpl;
    eexists _, _; rewrite ?Hs; done.
Qed.

(** X4. For a player, an action and an argument that are [formattable],
    and a turn number that [str] accepts, [execute_action] raises only
    after it has committed the turn: when the call raises, the exchange had
    succeeded, [turn_number] has advanced by one, the snapshot is the one
    of the response, and [game_history] has gained the record of the call.
    (The log line at the head of the method formats the four values; on a
    value that [str] refuses it raises before the exchange, which the
    embedding leaves out.) *)
Theorem execute_action_raises_after_commit player action arg now self e :
  fits_str (turn_number self + 1) = true →
  formattable player = true →
  formattable action = true →
  formattable arg = true →
  fst (execute_action player action arg now self) = Raised e →
  exchange_ok (action_command player action arg) self = true ∧
  turn_number (snd (execute_action player action arg now self))
    = turn_number self + 1 ∧
  game_history (snd (execute_action player action arg now self))
    = game_history self ++
        [{| turn := turn_number self + 1; player := player; action := action;
            arg := arg; timestamp := now;
            game_state_before := game_state self;
            game_state_after :=
              game_state (snd (execute_action player action arg now self)) |}].
Proof.
  intros _ _ _ _ Hraise.
  destruct (exchange_ok (action_command player action arg) self) eqn:Hok.
  - destruct (execute_action_succeeded _ _ _ now _ Hok) as (result & p' & _ & ->).
    done.
  - destruct (execute_action_failed _ _ _ now _ Hok) as (result & p' & _ & _ & Hex).
    by rewrite Hex in Hraise.
Qed.

(** X5. Along every run of [execute_action] calls, [get_state] calls and
    engine activity, the history only grows at its end: what it held before
    the run is still there, unchanged and in the same place, after it. *)
Theorem history_append_only evs self :
  game_history self `prefix_of` game_history (run evs self).
Proof.
  destruct (run_turn_records evs self) as [_ ->]. by eexists.
Qed.

Lemma chained_snoc origin h current r :
  chained origin h current →
  game_state_before r = current →
  chained origin (h ++ [r]) (game_state_after r).
Proof.
  revert origin. induction h as [|r' h IH]; intros origin; simpl.
  - by intros ->.
  - intros [? ?] ?. split; [done|]. by apply IH.
Qed.

(** X6. In a run without [get_state] calls the history stays a chain: when
    the records lead from a snapshot [origin] to the current snapshot, each
    starting from the snapshot the previous one ended with, they still do
    after the run; a failed action leaves no trace in the chain. *)
Theorem history_chained origin evs self :
  chained origin (game_history self) (game_state self) →
  no_get_state evs = true →
  chained origin (game_history (run evs self)) (game_state (run evs self)).
Proof.
  revert self. induction evs as [|ev evs IH]; intros self Hch Hno; [done|].
  simpl in Hno. apply andb_prop in Hno as [Hev Hno].
  simpl. apply IH; [|done]. clear IH Hno.
  destruct ev as [player action arg now| |p]; [|done|].
  - simpl. destruct (exchange_ok (action_command player action arg) self) eqn:Hok.
    + destruct (execute_action_succeeded _ _ _ now _ Hok) as (result & p' & _ & ->).
      simpl. by apply (chained_snoc origin (game_history self) (game_state self)
        {| turn := turn_number self + 1; player := player; action := action;
           arg := arg; timestamp := now; game_state_before := game_state self;
           game_state_after := get result "gameState" |}).
    + destruct (execute_action_failed _ _ _ now _ Hok) as (result & p' & _ & _ & ->).
      done.
  - simpl. by destruct (bridge_process self).
Qed.


(** What one exchange does to a live process: the command is written unless
    the write raises, and one read is made when the write went through. *)
Lemma exchange_live command p :
  issued command →
  returncode p = None →
  ∃ p', snd (exchange command (Some p)) = Some p' ∧
    returncode p' = None ∧ wait_exit p' = wait_exit p ∧
    sigterm p' = sigterm p ∧ stdin_error p' = stdin_error p ∧
    match stdin_error p with
    | Some _ => stdin p' = stdin p ∧ stdout p' = stdout p
    | None => stdin p' = stdin p ++ [command] ∧ stdout p' = tail (stdout p)
    end.
Proof.
  intros Hc Hrc. unfold exchange, _call_bridge, mbind, M_bind, get_self,
    process_running, try_except, on_process, lift, mret, M_ret,
    stdin_write, stdout_readline, set_bridge_process; simpl.
  rewrite (describe_command_issued _ Hc).
  destruct p as [rc err inp out we st]; simpl in *; subst rc; simpl.
  destruct err; simpl; [by eexists|].
  destruct out as [|[line|rerr] rest]; simpl; try by eexists.
  destruct (String.eqb line ""); [by eexists|].
  destruct (json_loads (str_strip line)) as [response|[]]; simpl; try by eexists.
  destruct (dict_method response "get") as [d|[]]; simpl; by eexists.
Qed.



Lemma execute_action_process player action arg now self :
  bridge_process (snd (execute_action player action arg now self)) =
    snd (exchange (action_command player action arg) (bridge_process self)).
Proof.
  unfold execute_action, _log_game_state. unfold_M.
  rewrite _call_bridge_exchange; simpl.
  destruct (exchange _ _) as [[result|e] p']; simpl; [|done].
  repeat (case_match; simplify_eq/=; try done).
Qed.

(** X8. For a player, an action and an argument that are [formattable],
    and a turn number that [str] accepts, [execute_action] sends its
    command whatever the session holds, a snapshot that reports the end of
    the game included: with a live process and a working pipe, the [action]
    command with the player, the action and the argument of the call is
    appended to what was written, and one read is taken off the response
    stream. (On a value that [str] refuses the log line at the head of the
    method raises and nothing is sent, which the embedding leaves out.) *)
Theorem execute_action_always_sends player action arg now self p :
  fits_str (turn_number self + 1) = true →
  formattable player = true →
  formattable action = true →
  formattable arg = true →
  bridge_process self = Some p →
  returncode p = None →
  stdin_error p = None →
  ∃ p',
    bridge_process (snd (execute_action player action arg now self)) = Some p' ∧
    stdin p' = stdin p ++ [action_command player action arg] ∧
    stdout p' = tail (stdout p).
Proof.
  intros _ _ _ _ Hp Hrc Herr. rewrite execute_action_process, Hp.
  destruct (exchange_live (action_command player action arg) p
              (issued_action _ _ _) Hrc) as (p' & -> & _ & _ & _ & _ & Hio).
  rewrite Herr in Hio. by exists p'.
Qed.


(** What [__del__] does with a live process: the [quit] exchange, then
    [wait], then [terminate] when the wait timed out. *)
Lemma __del___live self p :
  bridge_process self = Some p →
  returncode p = None →
  ∃ p',
    snd (exchange quit_command (Some p)) = Some p' ∧
    __del__ self =
      (Returned tt,
       set_bridge_process
         (Some (match wait_exit p with
                | Some code =>
                    {| returncode := Some code; stdin_error := stdin_error p';
                       stdin := stdin p'; stdout := stdout p';
                       wait_exit := wait_exit p'; sigterm := sigterm p' |}
                | None =>
                    {| returncode := None; stdin_error := stdin_error p';
                       stdin := stdin p'; stdout := stdout p';
                       wait_exit := wait_exit p'; sigterm := true |}
                end)) self).
Proof.
  intros Hp Hrc.
  destruct (exchange_live quit_command p issued_quit Hrc)
    as (p' & Hp' & Hrc' & Hwe & _).
  exists p'. split; [done|].
  unfold __del__. unfold_M. unfold process_running. rewrite Hp, Hrc.
  rewrite _call_bridge_exchange, Hp, Hp'.
  destruct (exchange_returns quit_command (Some p) issued_quit) as [result Hr].
  destruct (exchange quit_command (Some p)) as [o bp']; cbn [fst snd] in *.
  subst o. unfold on_process, set_bridge_process, wait, terminate; simpl.
  rewrite Hrc', Hwe. destruct (wait_exit p); simpl; [done|].
  rewrite Hrc'; simpl. by rewrite Hwe.
Qed.

(** X9. [__del__] never raises, in any state of the session and of the
    process, and it touches nothing but the process. When the process was
    running, it has afterwards either exited or been sent the termination
    signal. *)
Theorem shutdown_outcome self :
  ∃ self',
    __del__ self = (Returned tt, self') ∧
    game_state self' = game_state self ∧
    turn_number self' = turn_number self ∧
    game_history self' = game_history self ∧
    (process_running self = true →
     ∃ p', bridge_process self' = Some p' ∧
           (is_Some (returncode p') ∨ sigterm p' = true)).
Proof.
  destruct (process_running self) eqn:Hrun.
  - unfold process_running in Hrun.
    destruct (bridge_process self) as [p|] eqn:Hp; [|done].
    destruct (returncode p) eqn:Hrc; [done|].
    destruct (__del___live self p Hp Hrc) as (p' & _ & ->).
    eexists. split_and!; try done. intros _. eexists. split; [done|].
    destruct (wait_exit p); simpl; [left; by eexists|by right].
  - exists self. unfold __del__. unfold_M. by rewrite Hrun.
Qed.

Lemma shutdown_times_idle n self :
  process_running self = false → shutdown_times n self = (Returned tt, self).
Proof.
  intros Hdead. induction n as [|n IH]; [done|].
  simpl. unfold mbind, M_bind. unfold __del__ at 1. unfold_M.
  by rewrite Hdead.
Qed.

(** One [__del__]: it returns, keeps the snapshot, the turn counter and
    the history, and leaves the process terminated. *)
Lemma __del___terminates self :
  ∃ self',
    __del__ self = (Returned tt, self') ∧
    game_state self' = game_state self ∧
    turn_number self' = turn_number self ∧
    game_history self' = game_history self ∧
    terminated self' = true ∧
    (process_running self = false → self' = self) ∧
    (∀ p code, bridge_process self = Some p → returncode p = None →
       wait_exit p = Some code →
       ∃ p', bridge_process self' = Some p' ∧ returncode p' = Some code ∧
             (stdin_error p = None → stdin p' = stdin p ++ [quit_command])) ∧
    (∀ p, bridge_process self = Some p → returncode p = None →
       wait_exit p = None →
       ∃ p', bridge_process self' = Some p' ∧ returncode p' = None ∧
             wait_exit p' = None ∧ sigterm p' = true).
Proof.
  destruct (process_running self) eqn:Hrun.
  - unfold process_running in Hrun.
    destruct (bridge_process self) as [p|] eqn:Hp; [|done].
    destruct (returncode p) eqn:Hrc; [done|].
    destruct (exchange_live quit_command p issued_quit Hrc)
      as (q & Hq & _ & Hwe & _ & _ & Hio).
    destruct (__del___live self p Hp Hrc) as (p' & Hp' & ->).
    rewrite Hq in Hp'. injection Hp' as <-.
    eexists. split_and!; try done.
    + unfold terminated; simpl. by destruct (wait_exit p).
    + intros p0 code [= <-] _ Hcode. rewrite Hcode. eexists.
      split_and!; [done|done|]. simpl. intros Herr.
      rewrite Herr in Hio. by destruct Hio.
    + intros p0 [= <-] _ Hnone. rewrite Hnone. eexists.
      split_and!; [done|done| |done]. simpl. congruence.
  - exists self. unfold __del__. unfold_M. rewrite Hrun.
    split_and!; try done.
    + unfold terminated. unfold process_running in Hrun.
      destruct (bridge_process self) as [p|]; [|done].
      by destruct (returncode p).
    + intros p code Hp Hrc. unfold process_running in Hrun.
      by rewrite Hp, Hrc in Hrun.
    + intros p Hp Hrc. unfold process_running in Hrun.
      by rewrite Hp, Hrc in Hrun.
Qed.

(** C9. In every state of the session and of the engine process,
    [__del__] can be invoked any number of times: the invocations return
    without raising, they keep the snapshot, the turn counter and the
    history, and after the first one the process is terminated (it never
    started, it has exited, or it has been sent the termination signal).
    Once the process has exited, from a kill from outside for instance, or
    when it never started, every invocation leaves [self] as it was. A
    running process that leaves within the timeout of [wait] has exited
    after the first invocation, which wrote it the [quit] command when
    the pipe works, and the further ones change nothing; a running process
    that outlives the timeout has been sent the termination signal. *)
Theorem shutdown_leaves_terminated n self :
  ∃ self',
    shutdown_times n self = (Returned tt, self') ∧
    game_state self' = game_state self ∧
    turn_number self' = turn_number self ∧
    game_history self' = game_history self ∧
    (n ≠ 0%nat → terminated self' = true) ∧
    (process_running self = false →
       self' = self ∧ process_running self' = false) ∧
    (∀ p code, bridge_process self = Some p → returncode p = None →
       wait_exit p = Some code → n ≠ 0%nat →
       process_running self' = false ∧
       (∃ p', bridge_process self' = Some p' ∧ returncode p' = Some code ∧
              (stdin_error p = None →
               stdin p' = stdin p ++ [quit_command])) ∧
       self' = snd (__del__ self)) ∧
    (∀ p, bridge_process self = Some p → returncode p = None →
       wait_exit p = None → n ≠ 0%nat →
       ∃ p', bridge_process self' = Some p' ∧ returncode p' = None ∧
             wait_exit p' = None ∧ sigterm p' = true).
Proof.
  revert self. induction n as [|n IH]; intros self.
  - exists self. split_and!; done.
  - destruct (__del___terminates self)
      as (self1 & Hdel & Hgs & Htn & Hgh & Hterm & Hidle & Hexit & Hhung).
    destruct (IH self1)
      as (self' & Hn & Hgs' & Htn' & Hgh' & Hterm' & Hidle' & Hexit' & Hhung').
    exists self'. simpl. unfold mbind, M_bind. rewrite Hdel, Hn.
    split_and!; try congruence.
    + intros _. destruct n as [|n]; [|by apply Hterm'].
      simpl in Hn. unfold mret, M_ret in Hn. congruence.
    + intros Hdead. destruct (Hidle Hdead) as [].
      destruct (Hidle' Hdead) as [-> ?]. done.
    + intros p code Hp Hrc Hwe _.
      destruct (Hexit p code Hp Hrc Hwe) as (p1 & Hp1 & Hrc1 & Hquit).
      assert (process_running self1 = false) as Hdead
        by (unfold process_running; by rewrite Hp1, Hrc1).
      destruct (Hidle' Hdead) as [-> _].
      split_and!; [done|by exists p1|done].
    + intros p Hp Hrc Hwe _.
      destruct (Hhung p Hp Hrc Hwe) as (p1 & Hp1 & Hrc1 & Hwe1 & Hst1).
      destruct n as [|n]; [|by apply (Hhung' p1)].
      simpl in Hn. unfold mret, M_ret in Hn.
      injection Hn as <-. by exists p1.
Qed.

(** X10. When the engine leaves within the timeout of [wait], one
    [__del__] shuts the process down for good: the process has exited
    afterwards, and any number of further invocations change nothing. *)
Theorem shutdown_graceful_then_idle n self p code :
  bridge_process self = Some p →
  returncode p = None →
  wait_exit p = Some code →
  process_running (snd (__del__ self)) = false ∧
  shutdown_times (S n) self = __del__ self.
Proof.
  intros Hp Hrc Hwe.
  destruct (__del___live self p Hp Hrc) as (p' & _ & Hdel).
  rewrite Hwe in Hdel.
  assert (process_running (snd (__del__ self)) = false) as Hdead
    by by rewrite Hdel.
  split; [done|].
  simpl. unfold mbind, M_bind. rewrite Hdel in *. simpl in *.
  by rewrite shutdown_times_idle.
Qed.


(** ** When the logging of a snapshot raises *)

Lemma add_units_returns acc x acc' :
  add_units acc x = Returned acc' → countable x = true.
Proof.
  unfold countable, add_units.
  by destruct (if truthy x then x else JInt 0).
Qed.

Lemma count_city_returns totals item totals' :
  count_city totals item = Returned totals' → tidy_units item = true.
Proof.
  destruct totals as [[[ga pa] gf] pf], item as [city []]; try done.
  unfold count_city, tidy_units.
  destruct (String.eqb city "reserve"); [done|].
  unfold mbind, outcome_bind.
  cbn -[Nat.leb Nat.ltb index countable add_units].
  rewrite !Nat.ltb_antisym.
  destruct (2 <=? length l)%nat;
    cbn -[Nat.leb Nat.ltb index countable add_units].
  - destruct (add_units ga (index l 0)) as [ga'|] eqn:H0; [|done].
    destruct (add_units pa (index l 1)) as [pa'|] eqn:H1; [|done].
    rewrite (add_units_returns _ _ _ H0), (add_units_returns _ _ _ H1).
    destruct (4 <=? length l)%nat;
      cbn -[Nat.leb Nat.ltb index countable add_units]; [|done].
    destruct (add_units gf (index l 2)) as [gf'|] eqn:H2; [|done].
    destruct (add_units pf (index l 3)) as [pf'|] eqn:H3; [|done].
    by rewrite (add_units_returns _ _ _ H2), (add_units_returns _ _ _ H3).
  - destruct (4 <=? length l)%nat;
      cbn -[Nat.leb Nat.ltb index countable add_units]; [|done].
    destruct (add_units gf (index l 2)) as [gf'|] eqn:H2; [|done].
    destruct (add_units pf (index l 3)) as [pf'|] eqn:H3; [|done].
    by rewrite (add_units_returns _ _ _ H2), (add_units_returns _ _ _ H3).
Qed.

Lemma for_each_count_city_returns totals items totals' :
  for_each count_city totals items = Returned totals' →
  Forall (λ item, tidy_units item = true) items.
Proof.
  revert totals. induction items as [|item items IH]; intros totals; simpl.
  - constructor.
  - destruct (count_city totals item) as [totals1|e] eqn:Hcity; [|done].
    intros Hrest. constructor.
    + by apply (count_city_returns totals item totals1).
    + by apply (IH totals1).
Qed.

(** X11. The logging of a snapshot that is a mapping returns only when
    the snapshot is [loggable]: it raises when the [actions] entry is
    present and not a mapping, when the [units] entry is truthy and not a
    mapping, and when a counted position of a unit list outside the reserve
    holds a truthy value that is not a number. (A loggable snapshot can
    still make the logging raise, on unit counts beyond the range of a
    float or totals beyond the print limit.) *)
Theorem log_game_state_loggable gs :
  log_game_state_of (JDict gs) = Returned tt → loggable gs.
Proof.
  unfold log_game_state_of, loggable, mbind, outcome_bind; simpl.
  destruct (get_default gs "actions" (JDict ∅)) as [| | | | | |acts]; simpl;
    try done.
  destruct (truthy (get_default gs "units" (JDict ∅))) eqn:Hunits.
  2: { intros _. split; [by eexists|by left]. }
  destruct (get_default gs "units" (JDict ∅)) as [| | | | | |u]; simpl;
    try done.
  destruct (for_each count_city _ (map_to_list u)) as [totals'|e] eqn:Hfor;
    [|done].
  intros _. split; [by eexists|]. right. exists u. split; [done|].
  apply map_Forall_to_list. eapply Forall_impl.
  - by apply (for_each_count_city_returns _ _ _ Hfor).
  - by intros [city v].
Qed.


(** ** Properties of the random agent *)

Lemma random_choice_elem {A : Type} (first : A) (rest : list A) r :
  random_choice first rest r ∈ first :: rest.
Proof.
  unfold random_choice. apply list_elem_of_In, nth_In.
  apply Nat.mod_upper_bound. done.
Qed.

Lemma random_choice_any {A : Type} (first : A) (rest : list A) x :
  x ∈ first :: rest → ∃ r, random_choice first rest r = x.
Proof.
  intros [i Hi]%list_elem_of_lookup. exists i. unfold random_choice.
  pose proof (lookup_lt_Some _ _ _ Hi) as Hlt.
  rewrite Nat.mod_small by done. by apply nth_lookup_Some.
Qed.

Lemma truthy_dict_lookup (d : gmap string json) k v :
  d !! k = Some v → truthy (JDict d) = true.
Proof.
  intros Hk. simpl. apply negb_true_iff, bool_decide_eq_false.
  intros Hsize%map_size_empty_iff. by rewrite Hsize in Hk.
Qed.

(** What [get_actions(include_undo=False)] hands to the agent. *)
Lemma get_actions_filtered self :
  get_actions false self =
    if negb (truthy (game_state self)) then
      (Returned (failure "No active game"), self)
    else
      match game_state self with
      | JDict gs =>
          match get_default gs "actions" (JDict ∅) with
          | JDict acts =>
              (Returned {[ "success" := JBool true;
                           "actions" := JDict (filter (λ kv, kv.1 ≠ "undo") acts);
                           "active_player" := get gs "active_player";
                           "message" := JStr "Available actions from game state (undo filtered)" ]},
               self)
          | other => (Raised (AttributeError
                        ("'" +:+ type_name other
                         +:+ "' object has no attribute 'items'")), self)
          end
      | other => (Raised (AttributeError
                    ("'" +:+ type_name other
                     +:+ "' object has no attribute 'get'")), self)
      end.
Proof.
  unfold get_actions. unfold_M.
  destruct (truthy (game_state self)); simpl; [|done].
  destruct (game_state self); simpl; try done.
  destruct (get_default d "actions" (JDict ∅)); simpl; done.
Qed.

(** [choose_action] on a session whose snapshot is a mapping with the action
    mapping [acts]. *)
Lemma choose_action_on_snapshot r1 r2 agent game_env gs acts :
  game_state game_env = JDict gs →
  truthy (JDict gs) = true →
  get_default gs "actions" (JDict ∅) = JDict acts →
  choose_action r1 r2 agent game_env =
    (Returned
       match map_to_list (filter (λ kv, is_valid_action kv = true)
                            (filter (λ kv, kv.1 ≠ "undo") acts)) with
       | [] => None
       | kv :: rest =>
           let '(action_name, action_args) := random_choice kv rest r1 in
           Some (action_name, choose_arg action_args r2)
       end,
     {| name := name agent; decision_count := decision_count agent + 1 |},
     game_env).
Proof.
  intros Hgs Ht Hacts. unfold choose_action.
  rewrite get_actions_filtered, Hgs, Ht; simpl. rewrite Hacts.
  unfold get, get_default. rewrite lookup_insert_eq; simpl.
  rewrite lookup_insert_ne, lookup_insert_eq by done; simpl.
  destruct (negb (bool_decide (size (filter (λ kv, kv.1 ≠ "undo") acts) = 0%nat)))
    eqn:Hne; simpl.
  - by destruct (map_to_list _) as [|[k v] rest];
      [|destruct (random_choice _ _ _)].
  - apply (truthy_dict_false (filter (λ kv, kv.1 ≠ "undo") acts)) in Hne as ->.
    by rewrite map_filter_empty, map_to_list_empty.
Qed.

(** X13. An action that [choose_action] returns is an action the snapshot
    offers: its name is a key of the action mapping of the snapshot, it is
    not [undo], its entry is not disabled (neither 0, [False] nor the empty
    list), and when the entry is a list of choices the argument is one of
    them. *)
Theorem choose_action_valid r1 r2 agent game_env action_name action_arg :
  (choose_action r1 r2 agent game_env).1.1
    = Returned (Some (action_name, action_arg)) →
  ∃ gs acts action_args,
    game_state game_env = JDict gs ∧
    get_default gs "actions" (JDict ∅) = JDict acts ∧
    acts !! action_name = Some action_args ∧
    action_name ≠ "undo" ∧
    equals_zero action_args = false ∧
    action_args ≠ JList [] ∧
    action_arg = choose_arg action_args r2 ∧
    (∀ choices, action_args = JList choices → action_arg ∈ choices).
Proof.
  destruct (truthy (game_state game_env)) eqn:Ht.
  2: { unfold choose_action. rewrite get_actions_filtered, Ht. by simpl. }
  destruct (game_state game_env) as [| | | | | |gs] eqn:Hgs;
    try (unfold choose_action; rewrite get_actions_filtered, Hgs, Ht; by simpl).
  destruct (get_default gs "actions" (JDict ∅)) as [| | | | | |acts] eqn:Hacts;
    try (unfold choose_action; rewrite get_actions_filtered, Hgs, Ht; simpl;
         rewrite Hacts; by simpl).
  rewrite (choose_action_on_snapshot r1 r2 agent game_env gs acts Hgs Ht Hacts).
  simpl. destruct (map_to_list _) as [|kv rest] eqn:Hlist; [done|].
  pose proof (random_choice_elem kv rest r1) as Hin.
  destruct (random_choice kv rest r1) as [k v]. intros [= -> <-].
  rewrite <- Hlist in Hin. apply elem_of_map_to_list in Hin.
  apply map_lookup_filter_Some in Hin as [Hin Hvalid].
  apply map_lookup_filter_Some in Hin as [Hin Hundo].
  unfold is_valid_action in Hvalid; simpl in *.
  repeat (apply andb_prop in Hvalid as [Hvalid ?]).
  exists gs, acts, v. split_and!; try done.
  - by apply negb_true_iff.
  - intros ->. done.
  - intros choices ->. simpl.
    destruct choices as [|x xs]; [done|]. apply random_choice_elem.
Qed.

(** X14. [choose_action] declines, returning [None], when the session holds
    no snapshot, and when every action the snapshot offers is [undo] or
    disabled. *)
Theorem choose_action_declines r1 r2 agent game_env :
  (truthy (game_state game_env) = false ∨
   ∃ gs acts,
     game_state game_env = JDict gs ∧
     get_default gs "actions" (JDict ∅) = JDict acts ∧
     map_Forall (λ k v, k = "undo" ∨ is_valid_action (k, v) = false) acts) →
  (choose_action r1 r2 agent game_env).1.1 = Returned None.
Proof.
  intros [Hfalsy|(gs & acts & Hgs & Hacts & Hall)].
  - unfold choose_action. rewrite get_actions_filtered, Hfalsy. by simpl.
  - destruct (truthy (JDict gs)) eqn:Ht.
    2: { unfold choose_action. rewrite get_actions_filtered, Hgs, Ht. by simpl. }
    rewrite (choose_action_on_snapshot r1 r2 agent game_env gs acts Hgs Ht Hacts).
    simpl.
    assert (filter (λ kv, is_valid_action kv = true)
              (filter (λ kv : string * json, kv.1 ≠ "undo") acts) = ∅) as ->.
    { apply map_empty. intros k. apply eq_None_not_Some. intros [v Hkv].
      apply map_lookup_filter_Some in Hkv as [Hkv Hvalid].
      apply map_lookup_filter_Some in Hkv as [Hk Hundo]. simpl in *.
      destruct (Hall k v Hk) as [?|Hinv]; [done|]. by rewrite Hinv in Hvalid. }
    by rewrite map_to_list_empty.
Qed.

Lemma get_actions_frame include_undo self :
  snd (get_actions include_undo self) = self.
Proof.
  unfold get_actions. unfold_M.
  repeat (case_match; simplify_eq/=; try done).
Qed.

Lemma choose_action_state r1 r2 agent game_env :
  (choose_action r1 r2 agent game_env).1.2
    = {| name := name agent; decision_count := decision_count agent + 1 |} ∧
  (choose_action r1 r2 agent game_env).2 = game_env.
Proof.
  unfold choose_action.
  pose proof (get_actions_frame false game_env) as Hframe.
  destruct (get_actions false game_env) as [[actions_result|e] game_env'];
    simpl in Hframe; subst game_env'; [|done].
  repeat (case_match; simplify_eq/=; try done).
Qed.

(** X15. [choose_action] counts every decision, also one that ends without
    an action or with an exception, and never changes the game: afterwards
    [decision_count] is one higher, the name is the same, and the session is
    as it was. *)
Theorem choose_action_frame r1 r2 agent game_env :
  (choose_action r1 r2 agent game_env).1.2
    = {| name := name agent; decision_count := decision_count agent + 1 |} ∧
  (choose_action r1 r2 agent game_env).2 = game_env.
Proof.
  unfold choose_action.
  pose proof (get_actions_frame false game_env) as Hframe.
  destruct (get_actions false game_env) as [[actions_result|e] game_env'];
    simpl in Hframe; subst game_env'; [|done].
  repeat (case_match; simplify_eq/=; try done).
Qed.

(** X16. Every action that the snapshot offers, that is not [undo] and
    whose entry is not disabled, can come out of [choose_action]: some draw
    of the generator selects it. *)
Theorem choose_action_reaches agent game_env gs acts action_name action_args :
  game_state game_env = JDict gs →
  get_default gs "actions" (JDict ∅) = JDict acts →
  acts !! action_name = Some action_args →
  is_valid_action (action_name, action_args) = true →
  ∃ r1, ∀ r2,
    (choose_action r1 r2 agent game_env).1.1
      = Returned (Some (action_name, choose_arg action_args r2)).
Proof.
  intros Hgs Hacts Hk Hvalid.
  assert (filter (λ kv, is_valid_action kv = true)
            (filter (λ kv : string * json, kv.1 ≠ "undo") acts)
            !! action_name = Some action_args) as Hin.
  { apply map_lookup_filter_Some. split; [|done].
    apply map_lookup_filter_Some. split; [done|]. simpl.
    unfold is_valid_action in Hvalid; simpl in Hvalid.
    apply andb_prop in Hvalid as [_ Hundo]. apply negb_true_iff in Hundo.
    by apply String.eqb_neq in Hundo. }
  assert (truthy (JDict gs) = true) as Ht.
  { unfold get_default in Hacts. destruct (gs !! "actions") eqn:Hga.
    - by apply (truthy_dict_lookup gs "actions" j).
    - simpl in Hacts. injection Hacts as <-. by rewrite lookup_empty in Hk. }
  apply elem_of_map_to_list in Hin.
  destruct (map_to_list _) as [|kv rest] eqn:Hlist; [by apply elem_of_nil in Hin|].
  destruct (random_choice_any kv rest _ Hin) as [r1 Hr1].
  exists r1. intros r2.
  rewrite (choose_action_on_snapshot r1 r2 agent game_env gs acts Hgs Ht Hacts).
  simpl. by rewrite Hlist, Hr1.
Qed.


Lemma accessors_frame self :
  snd (is_game_over self) = self ∧ snd (get_winner self) = self ∧
  snd (get_active_player self) = self ∧ snd (get_prompt self) = self.
Proof.
  unfold is_game_over, get_winner, get_active_player, get_prompt. unfold_M.
  destruct (truthy (game_state self)); simpl; [|done].
  by destruct (dict_method (game_state self) "get").
Qed.

(** What the rounds of [test_random_agent] do to the counters: at most one
    attempt per round, at most one attempt without a record, and no attempt
    without a decision. *)
Lemma random_rounds_counters n i draws clock agent game :
  let '(_, agent', game') := random_rounds n i draws clock agent game in
  0 ≤ turn_number game' - turn_number game ≤ Z.of_nat n ∧
  0 ≤ (turn_number game' - turn_number game)
      - (Z.of_nat (length (game_history game'))
         - Z.of_nat (length (game_history game))) ≤ 1 ∧
  turn_number game' - turn_number game
    ≤ decision_count agent' - decision_count agent ≤ Z.of_nat n.
Proof.
  revert i agent game. induction n as [|n IH]; intros i agent game.
  { simpl. lia. }
  cbn [random_rounds].
  destruct (accessors_frame game) as (Hover & _ & Hplayer & Hprompt).
  destruct (is_game_over game) as [[over|e] game1]; simpl in Hover; subst game1;
    [|lia].
  destruct (truthy over); [lia|].
  destruct (get_active_player game) as [[player|e] game1];
    simpl in Hplayer; subst game1; [|lia].
  destruct (get_prompt game) as [[prompt|e] game1];
    simpl in Hprompt; subst game1; [|lia].
  destruct (choose_action_state (draws i).1 (draws i).2 agent game) as [Hagent Hgame].
  destruct (choose_action _ _ agent game) as [[[choice|e] agent1] game1];
    simpl in Hagent, Hgame; subst agent1 game1; simpl; [|lia].
  destruct choice as [[action_name action_arg]|]; [|simpl; lia].
  destruct (exchange_ok (action_command player (JStr action_name) action_arg) game)
    eqn:Hok.
  - destruct (execute_action_succeeded _ _ _ (clock i) _ Hok)
      as (result & p' & _ & Hst).
    destruct (execute_action _ _ _ _ game) as [[result'|e] game1];
      simpl in Hst; subst game1; simpl.
    2: { rewrite length_app; simpl. lia. }
    destruct (negb (truthy (get result' "success"))).
    { simpl. rewrite length_app; simpl. lia. }
    specialize (IH (S i)
      {| name := name agent; decision_count := decision_count agent + 1 |}
      {| game_state := get result "gameState";
         turn_number := turn_number game + 1;
         game_history := game_history game ++
           [{| turn := turn_number game + 1; player := player;
               action := JStr action_name; arg := action_arg;
               timestamp := clock i; game_state_before := game_state game;
               game_state_after := get result "gameState" |}];
         bridge_process := p' |}).
    destruct (random_rounds n (S i) draws clock _ _) as [[o agent2] game2].
    simpl in IH. rewrite length_app in IH; simpl in IH. lia.
  - destruct (execute_action_failed _ _ _ (clock i) _ Hok)
      as (result & p' & _ & Hs & ->).
    rewrite Hs; simpl. lia.
Qed.

(** X17. The game that [test_random_agent] plays makes at most five
    attempts and stops at the first one that fails: at its end [turn_number]
    is at most 5, the history has one record per attempt except possibly the
    last one, and the agent has taken at least as many decisions as there
    were attempts, and at most five. *)
Theorem test_random_agent_bounds popen draws clock o agent game :
  test_random_agent popen draws clock = (o, Some (agent, game)) →
  0 ≤ turn_number game ≤ 5 ∧
  Z.of_nat (length (game_history game)) ≤ turn_number game
    ≤ Z.of_nat (length (game_history game)) + 1 ∧
  turn_number game ≤ decision_count agent ≤ 5.
Proof.
  unfold test_random_agent. destruct (__init__ popen) as [game0|e]; [|done].
  destruct (new_game_counters (JInt 54321) (JStr "Standard") JNull game0)
    as [Ht Hh].
  destruct (new_game _ _ _ game0) as [[result|e] game1]; simpl in Ht, Hh.
  2: { intros [= _ <- <-]. rewrite Ht, Hh. simpl. lia. }
  destruct (negb (truthy (get result "success"))).
  { intros [= _ <- <-]. rewrite Ht, Hh. simpl. lia. }
  unfold game_started.
  destruct (accessors_frame game1) as (_ & Hwin & Hplayer & _).
  destruct (get_active_player game1) as [[active_player|e] game2];
    simpl in Hplayer; subst game2.
  2: { intros [= _ <- <-]. rewrite Ht, Hh. simpl. lia. }
  assert (∀ agent1 : RandomAgent,
    decision_count agent1 = 0 →
    match random_rounds 5 0 draws clock agent1 game1 with
    | (Raised e, agent2, game2) => (Raised e, Some (agent2, game2))
    | (Returned _, agent2, game2) =>
        match get_winner game2 with
        | (Raised e, game3) => (Raised e, Some (agent2, game3))
        | (Returned _, game3) => (Returned tt, Some (agent2, game3))
        end
    end = (o, Some (agent, game)) →
    0 ≤ turn_number game ≤ 5 ∧
    Z.of_nat (length (game_history game)) ≤ turn_number game
      ≤ Z.of_nat (length (game_history game)) + 1 ∧
    turn_number game ≤ decision_count agent ≤ 5) as Hrounds.
  { intros agent1 Hd.
    pose proof (random_rounds_counters 5 0 draws clock agent1 game1) as Hb.
    destruct (random_rounds 5 0 draws clock agent1 game1) as [[o' agent2] game2].
    rewrite Ht, Hh, Hd in Hb. simpl in Hb.
    destruct o' as [[]|e].
    - destruct (accessors_frame game2) as (_ & Hwin2 & _).
      destruct (get_winner game2) as [[winner|e] game3];
        simpl in Hwin2; subst game3; intros [= _ <- <-]; lia.
    - intros [= _ <- <-]. lia. }
  destruct (truthy active_player).
  - destruct active_player; try (intros [= _ <- <-]; rewrite Ht, Hh; simpl; lia).
    by apply Hrounds.
  - by apply Hrounds.
Qed.


Lemma main_rounds_counters n i draws clock game :
  let '(_, game') := main_rounds n i draws clock game in
  0 ≤ turn_number game' - turn_number game ≤ Z.of_nat n ∧
  0 ≤ (turn_number game' - turn_number game)
      - (Z.of_nat (length (game_history game'))
         - Z.of_nat (length (game_history game))) ≤ 1.
Proof.
  revert i game. induction n as [|n IH]; intros i game.
  { simpl. lia. }
  cbn [main_rounds].
  pose proof (get_actions_frame false game) as Hframe.
  destruct (get_actions false game) as [[actions_result|e] game1];
    simpl in Hframe; subst game1; [|lia].
  destruct (negb (truthy (get actions_result "success"))); [lia|].
  destruct (dict_method _ "keys") as [items|e]; [|lia].
  destruct (map_to_list items) as [|kv rest]; [lia|].
  destruct (random_choice kv rest (draws i).1) as [action_name action_args].
  set (arg := match action_args with
              | JList (x :: xs) => random_choice x xs (draws i).2
              | _ => JNull
              end).
  destruct (accessors_frame game) as (_ & _ & Hplayer & _).
  destruct (get_active_player game) as [[player|e] game1];
    simpl in Hplayer; subst game1; [|lia].
  destruct (exchange_ok (action_command player (JStr action_name) arg) game)
    eqn:Hok.
  - destruct (execute_action_succeeded _ _ _ (clock i) _ Hok)
      as (result & p' & _ & Hst).
    destruct (execute_action _ _ _ _ game) as [[result'|e] game1];
      simpl in Hst; subst game1; simpl.
    2: { rewrite length_app; simpl. lia. }
    destruct (negb (truthy (get result' "success"))).
    { simpl. rewrite length_app; simpl. lia. }
    set (game1 := {| game_state := get result "gameState";
                     turn_number := turn_number game + 1;
                     game_history := _; bridge_process := p' |}).
    destruct (accessors_frame game1) as (Hover & Hwin & _ & Hprompt).
    destruct (get_prompt game1) as [[prompt|e] game2];
      simpl in Hprompt; subst game2.
    2: { simpl. rewrite length_app; simpl. lia. }
    destruct (is_game_over game1) as [[over|e] game2];
      simpl in Hover; subst game2.
    2: { simpl. rewrite length_app; simpl. lia. }
    destruct (truthy over).
    { destruct (get_winner game1) as [[winner|e] game2];
        simpl in Hwin; subst game2; simpl; rewrite length_app; simpl; lia. }
    specialize (IH (S i) game1).
    destruct (main_rounds n (S i) draws clock game1) as [o game2].
    simpl in IH. rewrite length_app in IH; simpl in IH. lia.
  - destruct (execute_action_failed _ _ _ (clock i) _ Hok)
      as (result & p' & _ & Hs & ->).
    rewrite Hs; simpl. lia.
Qed.

(** X18. The game that [main] plays makes at most three attempts and stops
    at the first one that fails: at its end [turn_number] is at most 3 and
    the history has one record per attempt except possibly the last one. *)
Theorem main_bounds popen draws clock o game :
  main popen draws clock = (o, Some game) →
  0 ≤ turn_number game ≤ 3 ∧
  Z.of_nat (length (game_history game)) ≤ turn_number game
    ≤ Z.of_nat (length (game_history game)) + 1.
Proof.
  unfold main. destruct (__init__ popen) as [game0|e]; [|done].
  destruct (new_game_counters (JInt 12345) (JStr "Standard") JNull game0)
    as [Ht Hh].
  destruct (new_game _ _ _ game0) as [[result|e] game1]; simpl in Ht, Hh.
  2: { intros [= _ <-]. rewrite Ht, Hh. simpl. lia. }
  destruct (negb (truthy (get result "success"))).
  { intros [= _ <-]. rewrite Ht, Hh. simpl. lia. }
  destruct (accessors_frame game1) as (_ & _ & Hplayer & Hprompt).
  destruct (get_active_player game1) as [[active_player|e] game2];
    simpl in Hplayer; subst game2.
  2: { intros [= _ <-]. rewrite Ht, Hh. simpl. lia. }
  destruct (get_prompt game1) as [[prompt|e] game2];
    simpl in Hprompt; subst game2.
  2: { intros [= _ <-]. rewrite Ht, Hh. simpl. lia. }
  pose proof (main_rounds_counters 3 0 draws clock game1) as Hb.
  destruct (main_rounds 3 0 draws clock game1) as [o' game2].
  rewrite Ht, Hh in Hb. simpl in Hb.
  destruct o' as [[]|e].
  - destruct (accessors_frame game2) as (Hover & _).
    destruct (is_game_over game2) as [[over|e] game3];
      simpl in Hover; subst game3; intros [= _ <-]; lia.
  - intros [= _ <-]. lia.
Qed.

End Bridge.

(** ** The claims on sample sessions *)

(** C1, as stated, fails: the engine rejects an action, and the turn
    counter of the session has moved from 1 to 2. *)
Lemma execute_action_failure_advances_turn :
  exchange_ok sample_strip sample_loads
    (action_command (JStr "Persia") (JStr "bogus") JNull)
    (midgame_session [line_rejected]) = false ∧
  turn_number (midgame_session [line_rejected]) = 1 ∧
  turn_number (snd (execute_action sample_strip sample_loads
                      (JStr "Persia") (JStr "bogus") JNull "2025-01-01T12:00:05"
                      (midgame_session [line_rejected]))) = 2.
Proof. vm_compute. done. Qed.

Lemma execute_action_failure_effect_witness :
  exchange_ok sample_strip sample_loads
    (action_command (JStr "Persia") (JStr "bogus") JNull)
    (midgame_session [line_rejected]) = false ∧
  ∃ result self',
    execute_action sample_strip sample_loads
      (JStr "Persia") (JStr "bogus") JNull "2025-01-01T12:00:05"
      (midgame_session [line_rejected]) = (Returned result, self') ∧
    fst (_call_bridge sample_strip sample_loads
           (action_command (JStr "Persia") (JStr "bogus") JNull)
           (midgame_session [line_rejected])) = Returned result ∧
    truthy (get result "success") = false ∧
    game_history self' = game_history (midgame_session [line_rejected]) ∧
    game_state self' = game_state (midgame_session [line_rejected]) ∧
    turn_number self' = turn_number (midgame_session [line_rejected]) + 1.
Proof.
  split; [vm_compute; reflexivity|].
  apply (execute_action_failure_effect sample_strip sample_loads).
  vm_compute; reflexivity.
Defined.

(** C2, as stated, fails: [new_game] on a session whose engine has been
    killed returns a failure, and the turn counter and the history of the
    session are gone. *)
Lemma new_game_failure_resets_counters :
  exchange_ok sample_strip sample_loads
    (setup_command (JInt 12345) (JStr "Standard") (default_options JNull))
    orphaned_session = false ∧
  turn_number orphaned_session = 1 ∧
  game_history orphaned_session = [sample_record] ∧
  turn_number (snd (new_game sample_strip sample_loads
                      (JInt 12345) (JStr "Standard") JNull orphaned_session)) = 0 ∧
  game_history (snd (new_game sample_strip sample_loads
                       (JInt 12345) (JStr "Standard") JNull orphaned_session)) = [].
Proof. vm_compute. done. Qed.

Lemma new_game_failure_effect_witness :
  exchange_ok sample_strip sample_loads
    (setup_command (JInt 12345) (JStr "Standard") (default_options JNull))
    orphaned_session = false ∧
  ∃ result self',
    new_game sample_strip sample_loads (JInt 12345) (JStr "Standard") JNull
      orphaned_session = (Returned result, self') ∧
    fst (_call_bridge sample_strip sample_loads
           (setup_command (JInt 12345) (JStr "Standard") (default_options JNull))
           orphaned_session) = Returned result ∧
    truthy (get result "success") = false ∧
    game_state self' = game_state orphaned_session ∧
    turn_number self' = 0 ∧
    game_history self' = [].
Proof.
  split; [vm_compute; reflexivity|].
  apply (new_game_failure_effect sample_strip sample_loads).
  vm_compute; reflexivity.
Defined.

Lemma turn_number_after_successes_witness :
  exchange_ok sample_strip sample_loads
    (setup_command (JInt 12345) (JStr "Standard") (default_options JNull))
    (fresh_session [line_ok_greece; line_ok_persia; line_ok_greece]) = true ∧
  all_succeed sample_strip sample_loads two_good_calls
    (snd (new_game sample_strip sample_loads (JInt 12345) (JStr "Standard") JNull
            (fresh_session [line_ok_greece; line_ok_persia; line_ok_greece])))
    = true ∧
  turn_number
    (run sample_strip sample_loads two_good_calls
       (snd (new_game sample_strip sample_loads (JInt 12345) (JStr "Standard") JNull
               (fresh_session [line_ok_greece; line_ok_persia; line_ok_greece]))))
    = Z.of_nat (attempts two_good_calls) ∧
  Z.of_nat (length (game_history
    (run sample_strip sample_loads two_good_calls
       (snd (new_game sample_strip sample_loads (JInt 12345) (JStr "Standard") JNull
               (fresh_session [line_ok_greece; line_ok_persia; line_ok_greece]))))))
    = turn_number
        (run sample_strip sample_loads two_good_calls
           (snd (new_game sample_strip sample_loads (JInt 12345) (JStr "Standard") JNull
                   (fresh_session [line_ok_greece; line_ok_persia; line_ok_greece])))).
Proof.
  split; [vm_compute; reflexivity|].
  split; [vm_compute; reflexivity|].
  apply (turn_number_after_successes sample_strip sample_loads);
    vm_compute; reflexivity.
Defined.

(** C4, as stated, fails: after a rejected call and an accepted one the
    history holds one record, and its turn is 2, not 1. *)
Lemma history_turn_skips_failed_attempt :
  exchange_ok sample_strip sample_loads
    (setup_command (JInt 12345) (JStr "Standard") (default_options JNull))
    (fresh_session [line_ok_greece; line_rejected; line_ok_persia]) = true ∧
  successes sample_strip sample_loads bad_then_good_call
    (snd (new_game sample_strip sample_loads (JInt 12345) (JStr "Standard") JNull
            (fresh_session [line_ok_greece; line_rejected; line_ok_persia]))) = 1%nat ∧
  turn <$> game_history
    (run sample_strip sample_loads bad_then_good_call
       (snd (new_game sample_strip sample_loads (JInt 12345) (JStr "Standard") JNull
               (fresh_session [line_ok_greece; line_rejected; line_ok_persia]))))
    = [2].
Proof. vm_compute. done. Qed.

Lemma history_records_successful_actions_witness :
  exchange_ok sample_strip sample_loads
    (setup_command (JInt 12345) (JStr "Standard") (default_options JNull))
    (fresh_session [line_ok_greece; line_rejected; line_ok_persia]) = true ∧
  length (game_history
    (run sample_strip sample_loads bad_then_good_call
       (snd (new_game sample_strip sample_loads (JInt 12345) (JStr "Standard") JNull
               (fresh_session [line_ok_greece; line_rejected; line_ok_persia])))))
    = successes sample_strip sample_loads bad_then_good_call
        (snd (new_game sample_strip sample_loads (JInt 12345) (JStr "Standard") JNull
                (fresh_session [line_ok_greece; line_rejected; line_ok_persia]))).
Proof.
  split; [vm_compute; reflexivity|].
  apply (history_records_successful_actions sample_strip sample_loads
           (JInt 12345) (JStr "Standard") JNull bad_then_good_call
           (fresh_session [line_ok_greece; line_rejected; line_ok_persia])).
  vm_compute; reflexivity.
Defined.

(** C5 fails on the code: the snapshot reports the end of the game and has
    no [winner] entry; [is_game_over] returns [True] and [get_winner] returns
    [None], where [execute_action] logs such a game as a [Draw]. *)
Lemma get_winner_none_after_game_over :
  is_game_over finished_session = (Returned (JBool true), finished_session) ∧
  get_winner finished_session = (Returned JNull, finished_session).
Proof. vm_compute. done. Qed.

Lemma get_actions_undo_filter_witness :
  game_state undo_session = JDict snapshot_with_undo ∧
  get_default snapshot_with_undo "actions" (JDict ∅) = JDict actions_with_undo ∧
  ∃ result_without result_with a_without a_with,
    get_actions false undo_session = (Returned result_without, undo_session) ∧
    get_actions true undo_session = (Returned result_with, undo_session) ∧
    returned_actions result_without = JDict a_without ∧
    returned_actions result_with = JDict a_with ∧
    a_without !! "undo" = None ∧
    (is_Some (a_with !! "undo") ↔ is_Some (actions_with_undo !! "undo")).
Proof.
  split; [vm_compute; reflexivity|]. split; [vm_compute; reflexivity|].
  destruct (get_actions_undo_filter undo_session snapshot_with_undo
              actions_with_undo)
    as (r1 & r2 & a1 & a2 & H1 & H2 & H3 & H4 & H5 & H6 & _);
    [vm_compute; reflexivity|vm_compute; reflexivity|].
  exists r1, r2, a1, a2.
  exact (conj H1 (conj H2 (conj H3 (conj H4 (conj H5 H6))))).
Defined.

Lemma get_actions_without_snapshot_witness :
  game_state (fresh_session []) = JNull ∧
  get_actions false (fresh_session [])
    = (Returned (failure "No active game"), fresh_session []).
Proof.
  split; [reflexivity|].
  apply (get_actions_without_snapshot false (fresh_session [])). reflexivity.
Defined.



Lemma shutdown_leaves_terminated_witness :
  ∃ self',
    shutdown_times sample_strip sample_loads 2 hung_session
      = (Returned tt, self') ∧
    terminated self' = true ∧
    game_history self' = [sample_record].
Proof.
  destruct (shutdown_leaves_terminated sample_strip sample_loads 2
              hung_session)
    as (self' & Hrun & _ & _ & Hgh & Hterm & _).
  exists self'. split_and!; [exact Hrun| |exact Hgh].
  apply Hterm. discriminate.
Defined.

Lemma accessors_without_snapshot_witness :
  game_state (fresh_session []) = JNull ∧
  is_game_over (fresh_session []) = (Returned (JBool false), fresh_session []) ∧
  get_winner (fresh_session []) = (Returned JNull, fresh_session []) ∧
  get_active_player (fresh_session []) = (Returned JNull, fresh_session []) ∧
  get_prompt (fresh_session []) = (Returned (JStr ""), fresh_session []).
Proof.
  split; [reflexivity|].
  apply (accessors_without_snapshot (fresh_session [])). reflexivity.
Defined.

(** ** The further properties on sample sessions *)

Lemma new_game_adopts_snapshot_witness :
  exchange_ok sample_strip sample_loads
    (setup_command (JInt 12345) (JStr "Standard") (default_options JNull))
    (fresh_session [line_ok_bare]) = true ∧
  game_state (snd (new_game sample_strip sample_loads (JInt 12345)
                     (JStr "Standard") JNull (fresh_session [line_ok_bare])))
    = JNull ∧
  get_actions false
    (snd (new_game sample_strip sample_loads (JInt 12345) (JStr "Standard")
            JNull (fresh_session [line_ok_bare])))
    = (Returned (failure "No active game"),
       snd (new_game sample_strip sample_loads (JInt 12345) (JStr "Standard")
              JNull (fresh_session [line_ok_bare]))).
Proof.
  split; [vm_compute; reflexivity|].
  destruct (new_game_adopts_snapshot sample_strip sample_loads (JInt 12345)
              (JStr "Standard") JNull (fresh_session [line_ok_bare]))
    as (result & Hr & Hgs & Hnone); [vm_compute; reflexivity|].
  vm_compute in Hr. injection Hr as <-.
  split; [rewrite Hgs; vm_compute; reflexivity|].
  apply Hnone. vm_compute; reflexivity.
Defined.

Lemma execute_action_raises_after_commit_witness :
  fits_str (turn_number (midgame_session [line_ok_list]) + 1) = true ∧
  formattable (JStr "Persia") = true ∧
  formattable (JStr "next") = true ∧
  formattable JNull = true ∧
  fst (execute_action sample_strip more_loads (JStr "Persia") (JStr "next")
         JNull "2025-01-01T12:00:05" (midgame_session [line_ok_list]))
    = Raised (AttributeError "'list' object has no attribute 'get'") ∧
  exchange_ok sample_strip more_loads
    (action_command (JStr "Persia") (JStr "next") JNull)
    (midgame_session [line_ok_list]) = true ∧
  turn_number (snd (execute_action sample_strip more_loads (JStr "Persia")
                      (JStr "next") JNull "2025-01-01T12:00:05"
                      (midgame_session [line_ok_list])))
    = turn_number (midgame_session [line_ok_list]) + 1.
Proof.
  split; [vm_compute; reflexivity|].
  split; [reflexivity|]. split; [reflexivity|]. split; [reflexivity|].
  split; [vm_compute; reflexivity|].
  destruct (execute_action_raises_after_commit sample_strip more_loads
              (JStr "Persia") (JStr "next") JNull "2025-01-01T12:00:05"
              (midgame_session [line_ok_list])
              (AttributeError "'list' object has no attribute 'get'"))
    as (Hok & Ht & _);
    [vm_compute; reflexivity|reflexivity|reflexivity|reflexivity
    |vm_compute; reflexivity|].
  exact (conj Hok Ht).
Defined.

Lemma history_chained_witness :
  chained snapshot_greece
    (game_history (midgame_session [line_rejected; line_ok_greece]))
    (game_state (midgame_session [line_rejected; line_ok_greece])) ∧
  no_get_state bad_then_good_call = true ∧
  chained snapshot_greece
    (game_history (run sample_strip sample_loads bad_then_good_call
                     (midgame_session [line_rejected; line_ok_greece])))
    (game_state (run sample_strip sample_loads bad_then_good_call
                   (midgame_session [line_rejected; line_ok_greece]))).
Proof.
  split; [vm_compute; split; reflexivity|].
  split; [reflexivity|].
  apply (history_chained sample_strip sample_loads);
    [vm_compute; split; reflexivity|reflexivity].
Defined.


Lemma execute_action_always_sends_witness :
  fits_str (turn_number finished_session + 1) = true ∧
  formattable (JStr "Greece") = true ∧
  formattable (JStr "draw") = true ∧
  formattable JNull = true ∧
  bridge_process finished_session = Some (live_process []) ∧
  returncode (live_process []) = None ∧
  stdin_error (live_process []) = None ∧
  ∃ p',
    bridge_process (snd (execute_action sample_strip sample_loads (JStr "Greece")
                           (JStr "draw") JNull "2025-01-01T12:00:05"
                           finished_session)) = Some p' ∧
    stdin p' = stdin (live_process [])
               ++ [action_command (JStr "Greece") (JStr "draw") JNull] ∧
    stdout p' = tail (stdout (live_process [])).
Proof.
  split; [vm_compute; reflexivity|].
  split; [reflexivity|]. split; [reflexivity|]. split; [reflexivity|].
  split; [reflexivity|]. split; [reflexivity|]. split; [reflexivity|].
  apply (execute_action_always_sends sample_strip sample_loads);
    first [reflexivity|vm_compute; reflexivity].
Defined.

Lemma shutdown_graceful_then_idle_witness :
  bridge_process (midgame_session []) = Some (live_process []) ∧
  returncode (live_process []) = None ∧
  wait_exit (live_process []) = Some 0 ∧
  process_running (snd (__del__ sample_strip sample_loads (midgame_session [])))
    = false ∧
  shutdown_times sample_strip sample_loads 3 (midgame_session [])
    = __del__ sample_strip sample_loads (midgame_session []).
Proof.
  split; [reflexivity|]. split; [reflexivity|]. split; [reflexivity|].
  apply (shutdown_graceful_then_idle sample_strip sample_loads 2
           (midgame_session []) (live_process []) 0); reflexivity.
Defined.

Lemma choose_action_valid_witness :
  (choose_action 0 0 {| name := "TestBot"; decision_count := 0 |} draw_session).1.1
    = Returned (Some ("draw", JNull)) ∧
  ∃ gs acts action_args,
    game_state draw_session = JDict gs ∧
    get_default gs "actions" (JDict ∅) = JDict acts ∧
    acts !! "draw" = Some action_args ∧
    "draw" ≠ "undo" ∧
    equals_zero action_args = false ∧
    action_args ≠ JList [] ∧
    JNull = choose_arg action_args 0 ∧
    (∀ choices, action_args = JList choices → JNull ∈ choices).
Proof.
  split; [vm_compute; reflexivity|].
  apply (choose_action_valid 0 0 {| name := "TestBot"; decision_count := 0 |}
           draw_session "draw" JNull).
  vm_compute; reflexivity.
Defined.

Lemma choose_action_declines_witness :
  (truthy (game_state stuck_session) = false ∨
   ∃ gs acts,
     game_state stuck_session = JDict gs ∧
     get_default gs "actions" (JDict ∅) = JDict acts ∧
     map_Forall (λ k v, k = "undo" ∨ is_valid_action (k, v) = false) acts) ∧
  (choose_action 0 0 {| name := "TestBot"; decision_count := 0 |}
     stuck_session).1.1 = Returned None.
Proof.
  assert (truthy (game_state stuck_session) = false ∨
          ∃ gs acts,
            game_state stuck_session = JDict gs ∧
            get_default gs "actions" (JDict ∅) = JDict acts ∧
            map_Forall (λ k v, k = "undo" ∨ is_valid_action (k, v) = false) acts)
    as Hstuck.
  { right. eexists _, {[ "undo" := JInt 1; "city" := JList [] ]}.
    split; [reflexivity|]. split; [vm_compute; reflexivity|].
    apply map_Forall_insert_2; [by left|].
    apply map_Forall_insert_2; [right; reflexivity|].
    apply map_Forall_empty. }
  split; [exact Hstuck|].
  apply (choose_action_declines 0 0 {| name := "TestBot"; decision_count := 0 |}
           stuck_session Hstuck).
Defined.

Lemma choose_action_reaches_witness :
  game_state draw_session = JDict snapshot_draw ∧
  get_default snapshot_draw "actions" (JDict ∅)
    = JDict {[ "draw" := JInt 1; "undo" := JInt 1 ]} ∧
  ({[ "draw" := JInt 1; "undo" := JInt 1 ]} : gmap string json) !! "draw"
    = Some (JInt 1) ∧
  is_valid_action ("draw", JInt 1) = true ∧
  ∃ r1, ∀ r2,
    (choose_action r1 r2 {| name := "TestBot"; decision_count := 0 |}
       draw_session).1.1
      = Returned (Some ("draw", choose_arg (JInt 1) r2)).
Proof.
  split; [reflexivity|]. split; [vm_compute; reflexivity|].
  split; [vm_compute; reflexivity|]. split; [reflexivity|].
  apply (choose_action_reaches {| name := "TestBot"; decision_count := 0 |}
           draw_session snapshot_draw {[ "draw" := JInt 1; "undo" := JInt 1 ]}
           "draw" (JInt 1)); [reflexivity|vm_compute; reflexivity..].
Defined.

Lemma test_random_agent_bounds_witness :
  ∃ o agent game,
    test_random_agent sample_strip more_loads
      (Returned (live_process [line_ok_draw; line_ok_persia]))
      sample_draws sample_clock = (o, Some (agent, game)) ∧
    turn_number game = 1 ∧
    0 ≤ turn_number game ≤ 5 ∧
    Z.of_nat (length (game_history game)) ≤ turn_number game
      ≤ Z.of_nat (length (game_history game)) + 1 ∧
    turn_number game ≤ decision_count agent ≤ 5.
Proof.
  eexists _, _, _. split; [vm_compute; reflexivity|].
  split; [reflexivity|].
  eapply (test_random_agent_bounds sample_strip more_loads
            (Returned (live_process [line_ok_draw; line_ok_persia]))
            sample_draws sample_clock).
  vm_compute; reflexivity.
Defined.

Lemma main_bounds_witness :
  ∃ o game,
    main sample_strip more_loads
      (Returned (live_process [line_ok_draw; line_ok_persia]))
      sample_draws sample_clock = (o, Some game) ∧
    turn_number game = 1 ∧
    0 ≤ turn_number game ≤ 3 ∧
    Z.of_nat (length (game_history game)) ≤ turn_number game
      ≤ Z.of_nat (length (game_history game)) + 1.
Proof.
  eexists _, _. split; [vm_compute; reflexivity|].
  split; [reflexivity|].
  eapply (main_bounds sample_strip more_loads
            (Returned (live_process [line_ok_draw; line_ok_persia]))
            sample_draws sample_clock).
  vm_compute; reflexivity.
Defined.

Lemma log_game_state_loggable_witness :
  log_game_state_of (JDict board_snapshot) = Returned tt ∧
  loggable board_snapshot.
Proof.
  split; [vm_compute; reflexivity|].
  apply (log_game_state_loggable board_snapshot).
  vm_compute. reflexivity.
Defined.

(** Two loggable snapshots on which the totals raise: an army too large
    for a float next to a float, and armies whose sum is too long to
    print. *)
Lemma log_game_state_overflow :
  log_game_state_of (JDict overflow_snapshot) = Raised int_too_large.
Proof. vm_compute. reflexivity. Qed.

Lemma log_game_state_too_long :
  log_game_state_of (JDict crowded_snapshot) = Raised int_too_long.
Proof. vm_compute. reflexivity. Qed.
